(** * Beezly price-tag pipeline: detection, cropping, padding, OCR and jobs

    A shallow embedding of the three deployments found in the repository

    - [apps/ai/price-project/main.py]        (module [Main]),
    - [apps/ai/price-project/modal_app.py]   (module [Modal]),
    - [apps/ai/jupyter/modal_app.py]         (module [Jupyter]),

    and of the script [apps/ai/price-project/download_model.py] (module
    [DownloadModel]), together with the part of Pillow they rely on (module
    [PIL]), Python's floats (module [Float64]), the shared job dictionary
    and the work queue.  Python exceptions are values of [result]; the
    detector, the OCR model, the HTTP client and the image decoder are the
    fields of the record [Deps], the environment and the model libraries
    those of [Loader], the Hugging Face hub is a [Hub]. *)

From Stdlib Require Import ZArith Lia Bool List.
From Stdlib Require Import Floats.SpecFloat.
From Stdlib Require Import Reals Lra Psatz.
From stdpp Require Import base strings list gmap pretty.

Local Open Scope Z_scope.

(** ** Python exceptions *)

(** An exception that [except Exception] catches: its class and [str(e)]. *)
Record exn := Exception { exn_class : string; str : string }.

Inductive result (A : Type) : Type :=
| Ok (a : A)
| Raise (e : exn).
Arguments Ok {A} a.
Arguments Raise {A} e.

(** Sequencing: the first exception raised leaves the block. *)
#[global] Instance result_ret : MRet result := fun A a => Ok a.
#[global] Instance result_bind : MBind result := fun A B k m =>
  match m with
  | Ok a => k a
  | Raise e => Raise e
  end.

Definition is_ok {A : Type} (m : result A) : bool :=
  match m with Ok _ => true | Raise _ => false end.

(** ** The part of Pillow the pipeline uses *)

Module PIL.

(** A pixel of an RGB image. *)
Definition color : Type := Z * Z * Z.

Definition white : color := (255, 255, 255).
Definition black : color := (0, 0, 0).

(** [Image.Image]: its [mode], its [size] and pixel access. *)
Record Image := {
  mode : string;
  width : Z;
  height : Z;
  pixel : Z -> Z -> color
}.

Definition size (im : Image) : Z * Z := (width im, height im).

Definition in_bounds (im : Image) (x y : Z) : bool :=
  (0 <=? x) && (x <? width im) && (0 <=? y) && (y <? height im).

(** [im.getpixel((x, y))], [None] outside the image. *)
Definition getpixel (im : Image) (x y : Z) : option color :=
  if in_bounds im x y then Some (pixel im x y) else None.

(** [Image.new(mode, size, color)]. *)
Definition new (m : string) (sz : Z * Z) (c : color) : Image :=
  {| mode := m; width := fst sz; height := snd sz; pixel := fun _ _ => c |}.

(** [dst.paste(src, (ox, oy))]: the pixels of [src] replace those of [dst]
    in the region whose upper left corner is [(ox, oy)]; the size and mode
    of [dst] stay. *)
Definition paste (dst src : Image) (at_ : Z * Z) : Image :=
  {| mode := mode dst; width := width dst; height := height dst;
     pixel := fun x y =>
       match getpixel src (x - fst at_) (y - snd at_) with
       | Some c => c
       | None => pixel dst x y
       end |}.

(** [im.crop((x1, y1, x2, y2))] (Pillow 10 and later, which the deployments
    install):
    [ValueError] when right < left or lower < upper; the part of the box
    outside the image is black. *)
Definition crop (im : Image) (box : Z * Z * Z * Z) : result Image :=
  let '(x1, y1, x2, y2) := box in
  if x2 <? x1 then
    Raise (Exception "ValueError" "Coordinate 'right' is less than 'left'")
  else if y2 <? y1 then
    Raise (Exception "ValueError" "Coordinate 'lower' is less than 'upper'")
  else
    Ok {| mode := mode im; width := x2 - x1; height := y2 - y1;
          pixel := fun x y =>
            match getpixel im (x + x1) (y + y1) with
            | Some c => c
            | None => black
            end |}.

End PIL.

(** ** Python floats

    [float] is IEEE 754 binary64; the operations below are the Standard
    Library's specification of it at precision 53.  Integers are converted
    exactly as long as they are below 2^53, which image sizes are. *)

Module Float64.

Definition prec : Z := 53.
Definition emax : Z := 1024.

Definition float : Type := spec_float.

(** [float(n)] *)
Definition of_int (n : Z) : float := binary_normalize prec emax n 0 false.

(** [a / b] on two ints *)
Definition truediv (a b : Z) : result float :=
  if b =? 0 then Raise (Exception "ZeroDivisionError" "division by zero")
  else Ok (SFdiv prec emax (of_int a) (of_int b)).

(** [n * x] with [n] an int and [x] a float *)
Definition mul_int (n : Z) (x : float) : float :=
  SFmul prec emax (of_int n) x.

(** [int(x)]: truncation towards zero *)
Definition int (x : float) : result Z :=
  match x with
  | S754_zero _ => Ok 0
  | S754_finite s m e =>
      Ok (cond_Zopp s (if 0 <=? e then Z.pos m * 2 ^ e else Z.pos m / 2 ^ (- e)))
  | S754_infinity _ =>
      Raise (Exception "OverflowError" "cannot convert float infinity to integer")
  | S754_nan =>
      Raise (Exception "ValueError" "cannot convert float NaN to integer")
  end.

(** The literals of the sources. *)
Definition f0_25 : float := S754_finite false 4503599627370496 (-54).
Definition f0_1 : float := S754_finite false 7205759403792794 (-56).

End Float64.

(** ** Data model *)

Definition bytes : Type := list Byte.byte.

(** A numpy array of shape (H, W, C). *)
Definition ndarray : Type := list (list (list Z)).

(** What a caller can pass where the code tests [isinstance]. *)
Inductive py_arg :=
| ArgBytes (b : bytes)
| ArgArray (a : ndarray)
| ArgImage (im : PIL.Image)
| ArgOther.

(** One element of [res.boxes]: [box.xyxy[0]] after [.astype(int)],
    [box.conf[0]] and [box.cls[0]]. *)
Record Box := {
  xyxy : Z * Z * Z * Z;
  conf : Float64.float;
  cls : Z
}.

(** One element of the list [predict] returns. *)
Record Results := { boxes : list Box }.

(** An element of ["price_tags"]; the key ["error"] is present only in the
    records the jupyter deployment writes after a failed extraction. *)
Record PriceTagRecord := {
  bbox : list Z;
  text : string;
  confidence : Float64.float;
  class : string;
  error : option string
}.

(** The dictionary [{"count": ..., "price_tags": ...}]. *)
Record ExtractionResult := {
  count : nat;
  price_tags : list PriceTagRecord
}.

(** A JSON value of a request body. *)
#[warnings="-register-all"]
Inductive json :=
| JNull
| JBool (b : bool)
| JInt (n : Z)
| JFloat (x : Float64.float)
| JStr (s : string)
| JArr (l : list json)
| JObj (o : list (string * json)).

(** Python truthiness, as [if not url] tests it. *)
Definition truthy (v : json) : bool :=
  match v with
  | JNull => false
  | JBool b => b
  | JInt n => negb (n =? 0)
  | JFloat x => match x with S754_zero _ => false | _ => true end
  | JStr s => negb (String.eqb s "")
  | JArr l => negb (Nat.eqb (length l) 0)
  | JObj o => negb (Nat.eqb (length o) 0)
  end.

(** [requests.Response] *)
Record Response := { status_code : Z; content : bytes }.

(** [response.raise_for_status()] *)
Definition raise_for_status (r : Response) : result unit :=
  if (400 <=? status_code r) && (status_code r <? 600)
  then Raise (Exception "HTTPError" "Client or Server Error")
  else Ok tt.

(** The exception classes of [requests.exceptions] that derive from
    [RequestException], the class itself included.  An exception is known
    by the name of its class. *)
Definition request_exceptions : list string :=
  ["RequestException"; "InvalidJSONError"; "JSONDecodeError"; "HTTPError";
   "ConnectionError"; "ProxyError"; "SSLError"; "Timeout"; "ConnectTimeout";
   "ReadTimeout"; "URLRequired"; "TooManyRedirects"; "MissingSchema";
   "InvalidSchema"; "InvalidURL"; "InvalidProxyURL"; "InvalidHeader";
   "ChunkedEncodingError"; "ContentDecodingError"; "StreamConsumedError";
   "RetryError"; "UnrewindableBodyError"].

(** [isinstance(e, requests.RequestException)] *)
Definition is_RequestException (e : exn) : bool :=
  existsb (String.eqb (exn_class e)) request_exceptions.

(** What a FastAPI endpoint answers: the value it returns, or the
    [HTTPException(status_code, detail)] it raises. *)
Inductive Reply (A : Type) : Type :=
| Returns (body : A)
| HTTPException (status : Z) (detail : string).
Arguments Returns {A} body.
Arguments HTTPException {A} status detail.

(** The two [except] clauses of the synchronous URL endpoints, in order. *)
Definition url_reply {A : Type} (m : result A) : Reply A :=
  match m with
  | Ok r => Returns r
  | Raise e =>
      if is_RequestException e
      then HTTPException 400 ("Error downloading image: " +:+ str e)
      else HTTPException 500 ("Error processing image: " +:+ str e)
  end.

(** The single [except Exception] of the upload endpoints. *)
Definition file_reply {A : Type} (m : result A) : Reply A :=
  match m with
  | Ok r => Returns r
  | Raise e => HTTPException 500 ("Error processing image: " +:+ str e)
  end.

(** ** The work queue

    [image_queue] is a [modal.Queue] of URLs, first in, first out. *)
Definition Queue : Type := list string.

(** [image_queue.put(url)] *)
Definition put (url : string) (q : Queue) : Queue := q ++ [url].

(** [image_queue.is_empty()] *)
Definition is_empty (q : Queue) : bool :=
  match q with [] => true | _ :: _ => false end.

(** [image_queue.get()] on a queue that holds an item: the item and the
    queue without it.  On an empty queue the call blocks. *)
Definition get (q : Queue) : option (string * Queue) :=
  match q with [] => None | url :: q' => Some (url, q') end.

(** The line a queue worker writes once it is done with a URL. *)
Inductive LogLine :=
| LogCount (url : string) (n : nat)                  (** [Result for {url}: {n} price tags found] *)
| LogResult (url : string) (result : ExtractionResult) (** [Result for {url}: {result}] *)
| LogError (url : string) (e : string).              (** [Error processing {url}: {e}] *)

(** ** The job dictionary

    [job_statuses] is a [modal.Dict] from job identifier to one of the three
    dictionaries the code writes into it. *)
Inductive Job :=
| Submitted                               (** [{"status": "submitted", "result": None}] *)
| Completed (result : ExtractionResult)   (** [{"status": "completed", "result": result}] *)
| Failed (error : string).                (** [{"status": "failed", "error": str(e)}] *)

Definition status (j : Job) : string :=
  match j with
  | Submitted => "submitted"
  | Completed _ => "completed"
  | Failed _ => "failed"
  end.

Definition terminal (j : Job) : bool :=
  match j with
  | Submitted => false
  | Completed _ | Failed _ => true
  end.

(** A call of [f.spawn(...)] waiting to run. *)
Inductive Spawn :=
| process_url_job_spawn (job_id : string) (url : json)
| process_file_job_spawn (job_id : string) (file_data : bytes).

(** The shared state of a deployment: the dictionary, every assignment
    [job_statuses[k] = v] made so far, in order, and the spawned calls. *)
Record Store := {
  job_statuses : gmap string Job;
  assignments : list (string * Job);
  spawned : list Spawn
}.

(** [job_statuses[k] = v] *)
Definition setitem (k : string) (v : Job) (st : Store) : Store :=
  {| job_statuses := <[k := v]> (job_statuses st);
     assignments := assignments st ++ [(k, v)];
     spawned := spawned st |}.

(** [f.spawn(...)] *)
Definition spawn (c : Spawn) (st : Store) : Store :=
  {| job_statuses := job_statuses st;
     assignments := assignments st;
     spawned := spawned st ++ [c] |}.

(** The body of a submission response. *)
Record Submission := { job_id : string; submission_status : string }.

(** [f"job_{uuid.uuid4().hex[:8]}"], given the 32 hexadecimal digits drawn. *)
Definition new_job_id (hex : string) : string :=
  "job_" +:+ String.substring 0 8 hex.

(** ** External collaborators

    The detector (ultralytics), the OCR model (transformers), the float and
    resampling parts of Pillow, the HTTP client and a Python built-in.
    Each call either returns or raises. *)
Record Deps := {
  (** [detector_model.predict(image, conf=...)] *)
  predict : PIL.Image -> Float64.float -> result (list Results);
  (** [detector_model.names] *)
  names : gmap Z string;
  (** the OCR model on a prepared crop, up to [generated_text[0].strip()] *)
  ocr : PIL.Image -> result string;
  (** [image.resize(new_size, Image.Resampling.LANCZOS)] *)
  resize : PIL.Image -> Z * Z -> result PIL.Image;
  (** [image.thumbnail(size, Image.Resampling.LANCZOS)], the image after it *)
  thumbnail : PIL.Image -> Z * Z -> result PIL.Image;
  (** [image.convert(mode)] *)
  convert : PIL.Image -> string -> result PIL.Image;
  (** [Image.open(io.BytesIO(b))] *)
  Image_open : bytes -> result PIL.Image;
  (** [Image.fromarray(a)] *)
  Image_fromarray : ndarray -> result PIL.Image;
  (** [requests.get(url, ...)] *)
  requests_get : json -> result Response;
  (** [round(x, ndigits)] *)
  round : Float64.float -> Z -> Float64.float
}.

(** What loading the models needs from the process environment, the file
    system, the Hugging Face hub and the model libraries.  A loaded model is
    named by a handle. *)
Record Loader := {
  (** [os.environ.get(name)] *)
  environ_get : string -> option string;
  (** [path.exists()] *)
  path_exists : string -> bool;
  (** [path.mkdir(parents=True, exist_ok=True)] *)
  mkdir : string -> result unit;
  (** [hf_hub_download(repo_id=, filename=, token=, local_dir=)], the path
      of the file *)
  hf_hub_download : string -> string -> string -> string -> result string;
  (** [YOLO(path)] *)
  YOLO : string -> result string;
  (** [torch.cuda.is_available()] *)
  cuda_is_available : result bool;
  (** [AutoProcessor.from_pretrained(name, token=, cache_dir=)] *)
  AutoProcessor_from_pretrained : string -> string -> option string -> result string;
  (** [AutoModelForImageTextToText.from_pretrained(name, token=, cache_dir=,
      torch_dtype=, device_map="auto")] *)
  AutoModel_from_pretrained :
    string -> string -> option string -> string -> result string;
  (** [model.eval()] *)
  model_eval : string -> result unit
}.

(** The attributes [_load_models] leaves on a [PriceTagReader]. *)
Record Reader := {
  detector_model : string;
  ocr_processor : string;
  ocr_model : string
}.

(** The files of the directories the detector weights are kept in, by
    path.  The cache of the OCR model is a directory of its own
    ([models--nanonets--Nanonets-OCR-s] under [cache_dir]) and is not
    tracked. *)
Definition Files : Type := gset string.

(** The Hugging Face hub: what it answers to a request for the file at
    [path] of the repository [repo_id] made with [token]. *)
Record Hub := {
  fetch : string -> string -> option string -> result unit
}.

(** [hf_hub_download(repo_id=, filename=, subfolder=, local_dir=, token=)]:
    the file asked for is [subfolder/filename]; once fetched it is written
    under [local_dir] at the path it has in the repository, and that path
    is returned. *)
Definition hf_hub_download_to (H : Hub) (repo_id filename subfolder local_dir : string)
    (token : option string) (files : Files) : result string * Files :=
  let filename :=
    if String.eqb subfolder "" then filename else subfolder +:+ "/" +:+ filename in
  match fetch H repo_id filename token with
  | Ok _ =>
      let path := local_dir +:+ "/" +:+ filename in
      (Ok path, {[ path ]} ∪ files)
  | Raise e => (Raise e, files)
  end.

(** How [load_models] of the Modal deployments ends: the container is
    entered, or [sys.exit(code)]. *)
Inductive Startup (A : Type) : Type :=
| Entered (a : A)
| SystemExit (code : Z).
Arguments Entered {A} a.
Arguments SystemExit {A} code.

(** [for x in l: acc = body(acc, x)], left by the first exception. *)
Fixpoint for_each {A B : Type} (body : A -> B -> result A) (acc : A) (l : list B)
  : result A :=
  match l with
  | [] => Ok acc
  | x :: l' => acc' ← body acc x; for_each body acc' l'
  end.

(** [[int(x) for x in xyxy]] and [xyxy.tolist()] *)
Definition tolist (b : Z * Z * Z * Z) : list Z :=
  let '(x1, y1, x2, y2) := b in [x1; y1; x2; y2].

(** ** apps/ai/price-project/main.py *)

Module Main.
Section WithDeps.
Context (D : Deps).

Definition DETECTION_CONF_THRESHOLD : Float64.float := Float64.f0_25.

(** lines 115-134 *)
Definition _pad_to_square (pil_img : PIL.Image) (background_color : PIL.color)
  : PIL.Image :=
  let '(width, height) := PIL.size pil_img in
  if width =? height then pil_img
  else
    let size := Z.max width height in
    let result := PIL.new (PIL.mode pil_img) (size, size) background_color in
    PIL.paste result pil_img ((size - width) / 2, (size - height) / 2).

(** lines 147-152: the size handed to [resize], [None] when the image is
    small enough to be left alone. *)
Definition new_size (sz : Z * Z) : result (option (Z * Z)) :=
  let max_size := 1024 in
  if Z.max (fst sz) (snd sz) >? max_size then
    scale ← Float64.truediv max_size (Z.max (fst sz) (snd sz));
    w ← Float64.int (Float64.mul_int (fst sz) scale);
    h ← Float64.int (Float64.mul_int (snd sz) scale);
    mret (Some (w, h))
  else mret None.

(** lines 147-197, the body of the [try]. *)
Definition _extract_text_body (image : PIL.Image) : result string :=
  sz ← new_size (PIL.size image);
  image ← match sz with
           | Some sz => resize D image sz
           | None => Ok image
           end;
  ocr D image.

(** lines 136-201: any exception is logged and the text is empty. *)
Definition _extract_text (image : PIL.Image) : string :=
  match _extract_text_body image with
  | Ok generated_text => generated_text
  | Raise e => ""
  end.

(** lines 213-223: the argument as an RGB image. *)
Definition as_rgb (image : py_arg) : result PIL.Image :=
  image ← match image with
           | ArgBytes b => im ← Image_open D b; convert D im "RGB"
           | ArgArray a => im ← Image_fromarray D a; convert D im "RGB"
           | ArgImage im => Ok im
           | ArgOther =>
               Raise (Exception "ValueError"
                        "Input must be a PIL Image, numpy array, or bytes")
           end;
  if String.eqb (PIL.mode image) "RGB" then Ok image else convert D image "RGB".

(** lines 237-272, the body of the [try] of one iteration: [None] is the
    [continue] of line 249. *)
Definition process_box (image : PIL.Image) (box : Box)
  : result (option PriceTagRecord) :=
  let '(x1, y1, x2, y2) := xyxy box in
  let '(x1, y1) := (Z.max 0 x1, Z.max 0 y1) in
  let '(x2, y2) := (Z.min (PIL.width image) x2, Z.min (PIL.height image) y2) in
  if (x2 <=? x1) || (y2 <=? y1) then Ok None
  else
    cropped_img ← PIL.crop image (x1, y1, x2, y2);
    let padded_img := _pad_to_square cropped_img PIL.white in
    let confidence := conf box in
    let class_id := cls box in
    let class_name := default "price_tag" (names D !! class_id) in
    let text := _extract_text padded_img in
    mret (Some {| bbox := tolist (xyxy box);
                  text := text;
                  confidence := round D confidence 3;
                  class := class_name;
                  error := None |}).

(** lines 236-275: one iteration; [except Exception] logs and goes on. *)
Definition iteration (image : PIL.Image) (price_tags : list PriceTagRecord)
  (box : Box) : result (list PriceTagRecord) :=
  match process_box image box with
  | Ok (Some tag) => Ok (price_tags ++ [tag])
  | Ok None => Ok price_tags
  | Raise e => Ok price_tags
  end.

(** lines 203-283 *)
Definition detect_and_extract (image : py_arg) : result ExtractionResult :=
  image ← as_rgb image;
  results ← predict D image DETECTION_CONF_THRESHOLD;
  price_tags ← for_each (fun price_tags res =>
                  for_each (iteration image) price_tags (boxes res)) [] results;
  mret {| count := length price_tags; price_tags := price_tags |}.

(** lines 323-335, the body of the [try].  [loaded] tells whether
    [startup_event] has set the global [price_tag_reader]; while it is
    [None] the attribute access raises. *)
Definition process_image_url_body (loaded : bool) (url : string)
  : result ExtractionResult :=
  response ← requests_get D (JStr url);
  _ ← raise_for_status response;
  image ← (im ← Image_open D (content response); convert D im "RGB");
  if loaded then detect_and_extract (ArgImage image)
  else Raise (Exception "AttributeError"
                "'NoneType' object has no attribute 'detect_and_extract'").

(** lines 312-348 *)
Definition process_image_url (loaded : bool) (url : string)
  : Reply ExtractionResult :=
  url_reply (process_image_url_body loaded url).

(** lines 361-370, the body of the [try]; [contents] is the outcome of
    [await file.read()]. *)
Definition process_image_body (loaded : bool) (contents : result bytes)
  : result ExtractionResult :=
  contents ← contents;
  image ← (im ← Image_open D contents; convert D im "RGB");
  if loaded then detect_and_extract (ArgImage image)
  else Raise (Exception "AttributeError"
                "'NoneType' object has no attribute 'detect_and_extract'").

(** lines 350-377 *)
Definition process_image (loaded : bool) (contents : result bytes)
  : Reply ExtractionResult :=
  file_reply (process_image_body loaded contents).

End WithDeps.

Section WithLoader.
Context (L : Loader).

(** [str(DETECTION_MODEL_PATH)], [str(DETECTION_MODEL_PATH.parent)] and
    [str(MODEL_DIR)], lines 31-32. *)
Definition DETECTION_MODEL_PATH : string :=
  "models/price-tag-detection/weights/best.pt".
Definition DETECTION_MODEL_DIR : string := "models/price-tag-detection/weights".
Definition MODEL_DIR : string := "models".

(** lines 58-85, the body of the outer [try]: the weights on disk, or a
    download whose failure is raised again as a [FileNotFoundError]. *)
Definition load_detector (hf_token : string) : result string :=
  if path_exists L DETECTION_MODEL_PATH then YOLO L DETECTION_MODEL_PATH
  else
    _ ← mkdir L DETECTION_MODEL_DIR;
    match
      model_file ← hf_hub_download L "openfoodfacts/open-prices" "best.pt"
                     hf_token DETECTION_MODEL_DIR;
      YOLO L model_file
    with
    | Ok detector => Ok detector
    | Raise e =>
        Raise (Exception "FileNotFoundError"
                 ("Detector model not found at " +:+ DETECTION_MODEL_PATH +:+
                  " and download failed. Error: " +:+ str e))
    end.

(** lines 91-110, the body of the second [try]. *)
Definition load_ocr (hf_token : string) : result (string * string) :=
  cuda ← cuda_is_available L;
  let device := if (cuda : bool) then "cuda" else "cpu" in
  processor ← AutoProcessor_from_pretrained L "nanonets/Nanonets-OCR-s" hf_token
                (Some MODEL_DIR);
  model ← AutoModel_from_pretrained L "nanonets/Nanonets-OCR-s" hf_token
            (Some MODEL_DIR)
            (if String.eqb device "cuda" then "float16" else "float32");
  _ ← model_eval L model;
  mret (processor, model).

(** lines 48-113 *)
Definition _load_models : result Reader :=
  let hf_token := environ_get L "HF_TOKEN" in
  (* [if not hf_token]: [None] and the empty string *)
  if negb (match hf_token with Some t => negb (String.eqb t "") | None => false end)
  then Raise (Exception "ValueError" "HF_TOKEN environment variable not set")
  else
    let hf_token := default "" hf_token in
    match load_detector hf_token with
    | Raise e =>
        Raise (Exception "RuntimeError"
                 ("Failed to load detector model: " +:+ str e))
    | Ok detector =>
        match load_ocr hf_token with
        | Raise e =>
            Raise (Exception "RuntimeError"
                     ("Failed to load OCR model: " +:+ str e))
        | Ok (processor, model) =>
            Ok {| detector_model := detector;
                  ocr_processor := processor;
                  ocr_model := model |}
        end
    end.

End WithLoader.
End Main.

(** ** apps/ai/price-project/modal_app.py *)

Module Modal.
Section WithDeps.
Context (D : Deps).

(** lines 209-219 *)
Definition _pad_to_square (pil_img : PIL.Image) (background_color : PIL.color)
  : PIL.Image :=
  let '(width, height) := PIL.size pil_img in
  if width =? height then pil_img
  else
    let size := Z.max width height in
    let result := PIL.new (PIL.mode pil_img) (size, size) background_color in
    PIL.paste result pil_img ((size - width) / 2, (size - height) / 2).

(** lines 144-149 *)
Definition new_size (sz : Z * Z) : result (option (Z * Z)) :=
  let max_size := 1024 in
  if Z.max (fst sz) (snd sz) >? max_size then
    scale ← Float64.truediv max_size (Z.max (fst sz) (snd sz));
    w ← Float64.int (Float64.mul_int (fst sz) scale);
    h ← Float64.int (Float64.mul_int (snd sz) scale);
    mret (Some (w, h))
  else mret None.

(** [NanonetsOCR.extract_text], lines 136-194, on a PIL image with the
    model loaded: nothing is caught here. *)
Definition extract_text (image : PIL.Image) : result string :=
  sz ← new_size (PIL.size image);
  image ← match sz with
           | Some sz => resize D image sz
           | None => Ok image
           end;
  ocr D image.

(** lines 270-276 *)
Definition as_image (image : py_arg) : result PIL.Image :=
  match image with
  | ArgBytes b => im ← Image_open D b; convert D im "RGB"
  | ArgArray a => im ← Image_fromarray D a; convert D im "RGB"
  | ArgImage im => Ok im
  | ArgOther =>
      Raise (Exception "ValueError"
               "Input must be bytes, numpy array, or a PIL Image")
  end.

(** lines 288-323, the body of the [try] of one iteration. *)
Definition process_box (image : PIL.Image) (box : Box)
  : result (option PriceTagRecord) :=
  let '(x1, y1, x2, y2) := xyxy box in
  let '(x1, y1) := (Z.max 0 x1, Z.max 0 y1) in
  let '(x2, y2) := (Z.min (PIL.width image) x2, Z.min (PIL.height image) y2) in
  if (x2 <=? x1) || (y2 <=? y1) then Ok None
  else
    cropped_img ← PIL.crop image (x1, y1, x2, y2);
    let padded_img := _pad_to_square cropped_img PIL.white in
    let confidence := conf box in
    let class_id := cls box in
    let class_name := default "price_tag" (names D !! class_id) in
    text ← extract_text padded_img;
    mret (Some {| bbox := tolist (xyxy box);
                  text := text;
                  confidence := round D confidence 3;
                  class := class_name;
                  error := None |}).

(** lines 287-326 *)
Definition iteration (image : PIL.Image) (price_tags : list PriceTagRecord)
  (box : Box) : result (list PriceTagRecord) :=
  match process_box image box with
  | Ok (Some tag) => Ok (price_tags ++ [tag])
  | Ok None => Ok price_tags
  | Raise e => Ok price_tags
  end.

(** lines 268-334 *)
Definition _detect_and_extract (image : py_arg) : result ExtractionResult :=
  image ← as_image image;
  results ← predict D image Float64.f0_25;
  price_tags ← for_each (fun price_tags res =>
                  for_each (iteration image) price_tags (boxes res)) [] results;
  mret {| count := length price_tags; price_tags := price_tags |}.

(** lines 380-386, what the [try] of [process_url_job] computes before it
    writes. *)
Definition url_job_body (url : json) : result ExtractionResult :=
  response ← requests_get D url;
  _ ← raise_for_status response;
  image ← (im ← Image_open D (content response); convert D im "RGB");
  _detect_and_extract (ArgImage image).

(** lines 377-390 *)
Definition process_url_job (job_id : string) (url : json) (st : Store) : Store :=
  match url_job_body url with
  | Ok result => setitem job_id (Completed result) st
  | Raise e => setitem job_id (Failed (str e)) st
  end.

(** lines 395-399 *)
Definition file_job_body (file_data : bytes) : result ExtractionResult :=
  image ← (im ← Image_open D file_data; convert D im "RGB");
  _detect_and_extract (ArgImage image).

(** lines 392-403 *)
Definition process_file_job (job_id : string) (file_data : bytes) (st : Store)
  : Store :=
  match file_job_body file_data with
  | Ok result => setitem job_id (Completed result) st
  | Raise e => setitem job_id (Failed (str e)) st
  end.

(** lines 438-449; [hex] is [uuid.uuid4().hex]. *)
Definition submit_job_url (request : gmap string json) (hex : string) (st : Store)
  : result Submission * Store :=
  let url := default JNull (request !! "url") in
  if negb (truthy url) then
    (Raise (Exception "HTTPException" "URL is required"), st)
  else
    let job_id := new_job_id hex in
    let st := setitem job_id Submitted st in
    let st := spawn (process_url_job_spawn job_id url) st in
    (Ok {| job_id := job_id; submission_status := "submitted" |}, st).

(** lines 451-463; [contents] is the outcome of [await file.read()]. *)
Definition submit_job (contents : result bytes) (hex : string) (st : Store)
  : result Submission * Store :=
  match contents with
  | Ok contents =>
      let job_id := new_job_id hex in
      let st := setitem job_id Submitted st in
      let st := spawn (process_file_job_spawn job_id contents) st in
      (Ok {| job_id := job_id; submission_status := "submitted" |}, st)
  | Raise e =>
      (Raise (Exception "HTTPException" ("Error submitting job: " +:+ str e)), st)
  end.

(** lines 465-470 *)
Definition job_status (job_id : string) (st : Store) : result Job :=
  match job_statuses st !! job_id with
  | Some j => Ok j
  | None => Raise (Exception "HTTPException" ("Job " +:+ job_id +:+ " not found"))
  end.

(** lines 410-424: the statements of the [try] are those of
    [process_url_job] without the assignment. *)
Definition process_image_url (url : string) : Reply ExtractionResult :=
  url_reply
    (response ← requests_get D (JStr url);
     _ ← raise_for_status response;
     image ← (im ← Image_open D (content response); convert D im "RGB");
     _detect_and_extract (ArgImage image)).

(** lines 426-436; [contents] is the outcome of [await file.read()]. *)
Definition process_image (contents : result bytes) : Reply ExtractionResult :=
  file_reply
    (contents ← contents;
     image ← (im ← Image_open D contents; convert D im "RGB");
     _detect_and_extract (ArgImage image)).

(** lines 340-350: one turn of the loop of [process_queue], the line it
    logs added to [log]. *)
Definition process_queue_item (log : list LogLine) (url : string)
  : result (list LogLine) :=
  match
    response ← requests_get D (JStr url);
    _ ← raise_for_status response;
    image ← (im ← Image_open D (content response); convert D im "RGB");
    _detect_and_extract (ArgImage image)
  with
  | Ok result => Ok (log ++ [LogCount url (length (price_tags result))])
  | Raise e => Ok (log ++ [LogError url (str e)])
  end.

(** [image_queue.iterate()]: the items queued, oldest first. *)
Definition iterate (image_queue : Queue) : list string := image_queue.

(** lines 336-351: the lines logged. *)
Definition process_queue (image_queue : Queue) : result (list LogLine) :=
  for_each process_queue_item [] (iterate image_queue).

(** lines 353-359 *)
Definition feed_queue (urls : list string) (image_queue : Queue) : result Queue :=
  for_each (fun image_queue url => Ok (put url image_queue)) image_queue urls.

End WithDeps.

Section WithLoader.
Context (L : Loader) (H : Hub).

Definition MODEL_DIR : string := "/root/models".

(** lines 34-60, the detector part of [download_models_to_volume]: the
    files of the volume after it.  [mkdir] is outside the [try]. *)
Definition download_detector_to_volume (files : Files) : result Files :=
  let model_dir := MODEL_DIR +:+ "/" +:+ "open-prices" in
  if bool_decide (model_dir +:+ "/" +:+ "best.pt" ∈ files) then Ok files
  else
    _ ← mkdir L model_dir;
    let hf_token := environ_get L "HF_TOKEN" in
    match hf_hub_download_to H "openfoodfacts/open-prices" "best.pt" "weights"
            model_dir hf_token files with
    | (Ok model_path, files) => Ok files
    | (Raise e, files) => Ok ({[ model_dir +:+ "/" +:+ "DOWNLOAD_FAILED" ]} ∪ files)
    end.

(** lines 32-77: the OCR part catches everything and leaves the tracked
    files alone. *)
Definition download_models_to_volume (files : Files) : result Files :=
  download_detector_to_volume files.

(** [NanonetsOCR.load], lines 113-134 *)
Definition NanonetsOCR_load (hf_token : string) : result (string * string) :=
  cuda ← cuda_is_available L;
  let device : string := if (cuda : bool) then "cuda" else "cpu" in
  processor ← AutoProcessor_from_pretrained L "nanonets/Nanonets-OCR-s" hf_token None;
  model ← AutoModel_from_pretrained L "nanonets/Nanonets-OCR-s" hf_token None
            (if String.eqb device "cuda" then "float16" else "float32");
  _ ← model_eval L model;
  mret (processor, model).

(** lines 236-253, the body of the first [try] of [load_models]. *)
Definition load_detector (hf_token : string) (files : Files)
  : result string * Files :=
  let model_path := MODEL_DIR +:+ "/" +:+ "open-prices" +:+ "/" +:+ "best.pt" in
  if bool_decide (model_path ∈ files) then (YOLO L model_path, files)
  else
    match hf_hub_download_to H "openfoodfacts/open-prices" "best.pt" "weights"
            (MODEL_DIR +:+ "/" +:+ "open-prices") (Some hf_token) files with
    | (Ok model_file, files) => (YOLO L model_file, files)
    | (Raise e, files) => (Raise e, files)
    end.

(** lines 221-266 *)
Definition load_models (files : Files) : Startup Reader * Files :=
  let hf_token := environ_get L "HF_TOKEN" in
  (* [if not hf_token]: [None] and the empty string *)
  if negb (match hf_token with Some t => negb (String.eqb t "") | None => false end)
  then (SystemExit 1, files)
  else
    let hf_token := default "" hf_token in
    match load_detector hf_token files with
    | (Raise e, files) => (SystemExit 1, files)
    | (Ok detector, files) =>
        match NanonetsOCR_load hf_token with
        | Raise e => (SystemExit 1, files)
        | Ok (processor, model) =>
            (Entered {| detector_model := detector;
                        ocr_processor := processor;
                        ocr_model := model |}, files)
        end
    end.

End WithLoader.
End Modal.

(** ** apps/ai/price-project/download_model.py *)

Module DownloadModel.
Section WithLoader.
Context (L : Loader) (H : Hub).

(** [str(DETECTION_MODEL_DIR)], line 10 *)
Definition DETECTION_MODEL_DIR : string := "models/price-tag-detection".

(** lines 12-48, with the environment as [load_dotenv] leaves it: the
    tracked files after the call.  Each download is in a [try] of its own
    that prints the exception; the OCR part leaves the tracked files
    alone. *)
Definition download_models (files : Files) : Files :=
  let hf_token := environ_get L "HF_TOKEN" in
  if negb (match hf_token with Some t => negb (String.eqb t "") | None => false end)
  then files
  else
    match mkdir L DETECTION_MODEL_DIR with
    | Ok _ =>
        (hf_hub_download_to H "openfoodfacts/price-tag-detection" "best.pt" "weights"
           DETECTION_MODEL_DIR hf_token files).2
    | Raise e => files
    end.

End WithLoader.
End DownloadModel.

(** ** apps/ai/jupyter/modal_app.py *)

Module Jupyter.
Section WithDeps.
Context (D : Deps).

(** lines 138-151: one branch per longer axis. *)
Definition _pad_to_square (pil_img : PIL.Image) (background_color : PIL.color)
  : PIL.Image :=
  let '(width, height) := PIL.size pil_img in
  if width =? height then pil_img
  else if width >? height then
    let result := PIL.new (PIL.mode pil_img) (width, width) background_color in
    PIL.paste result pil_img (0, (width - height) / 2)
  else
    let result := PIL.new (PIL.mode pil_img) (height, height) background_color in
    PIL.paste result pil_img ((height - width) / 2, 0).

(** [NanonetsOCR.extract_text], lines 114-122, on a PIL image with the
    model loaded. *)
Definition extract_text (image : PIL.Image) : result string :=
  ocr D image.

(** lines 221-252, one iteration: the crop, the class name, the padding
    and the thumbnail are outside the [try]. *)
Definition iteration (image : PIL.Image) (price_tags : list PriceTagRecord)
  (box : Box) : result (list PriceTagRecord) :=
  let xyxy := xyxy box in
  cropped_img ← PIL.crop image xyxy;
  let confidence := conf box in
  class_name ← match names D !! cls box with
                | Some n => Ok n
                | None => Raise (Exception "KeyError" (pretty (cls box)))
                end;
  let padded_img := _pad_to_square cropped_img (255, 255, 255) in
  let MAX_SIZE := (1024, 1024) in
  padded_img ← thumbnail D padded_img MAX_SIZE;
  match extract_text padded_img with
  | Ok text =>
      Ok (price_tags ++ [{| bbox := tolist xyxy;
                            text := text;
                            confidence := confidence;
                            class := class_name;
                            error := None |}])
  | Raise e =>
      Ok (price_tags ++ [{| bbox := tolist xyxy;
                            text := "";
                            confidence := confidence;
                            class := class_name;
                            error := Some (str e) |}])
  end.

(** lines 206-254 *)
Definition _detect_and_extract (image : py_arg) : result ExtractionResult :=
  image ← match image with
           | ArgImage im => Ok im
           | _ => Raise (Exception "ValueError" "Input must be a PIL Image")
           end;
  results ← predict D image Float64.f0_1;
  price_tags ← for_each (fun price_tags res =>
                  for_each (iteration image) price_tags (boxes res)) [] results;
  mret {| count := length price_tags; price_tags := price_tags |}.

(** lines 328-333 *)
Definition url_job_body (url : json) : result ExtractionResult :=
  response ← requests_get D url;
  _ ← raise_for_status response;
  image ← (im ← Image_open D (content response); convert D im "RGB");
  _detect_and_extract (ArgImage image).

(** lines 324-335 *)
Definition process_url_job (job_id : string) (url : json) (st : Store) : Store :=
  match url_job_body url with
  | Ok result => setitem job_id (Completed result) st
  | Raise e => setitem job_id (Failed (str e)) st
  end.

(** lines 303-313 *)
Definition submit_job_url (request : gmap string json) (hex : string) (st : Store)
  : result Submission * Store :=
  let url := default JNull (request !! "url") in
  if negb (truthy url) then
    (Raise (Exception "HTTPException" "URL is required"), st)
  else
    let job_id := new_job_id hex in
    let st := setitem job_id Submitted st in
    let st := spawn (process_url_job_spawn job_id url) st in
    (Ok {| job_id := job_id; submission_status := "submitted" |}, st).

(** lines 315-320 *)
Definition job_status (job_id : string) (st : Store) : result Job :=
  match job_statuses st !! job_id with
  | Some j => Ok j
  | None => Raise (Exception "HTTPException" ("Job " +:+ job_id +:+ " not found"))
  end.

(** lines 290-301 *)
Definition process_image_url (url : string) : Reply ExtractionResult :=
  url_reply
    (response ← requests_get D (JStr url);
     _ ← raise_for_status response;
     image ← (im ← Image_open D (content response); convert D im "RGB");
     _detect_and_extract (ArgImage image)).

(** lines 262-271: the [try] of one turn of the loop, on the URL taken
    from the queue; the line it prints. *)
Definition process_queue_item (url : string) : LogLine :=
  match
    response ← requests_get D (JStr url);
    _ ← raise_for_status response;
    image ← (im ← Image_open D (content response); convert D im "RGB");
    _detect_and_extract (ArgImage image)
  with
  | Ok result => LogResult url result
  | Raise e => LogError url (str e)
  end.

(** lines 257-272: [while not image_queue.is_empty()], at most [fuel]
    turns; the queue left and the lines printed, [None] when the turns run
    out or [get] would block. *)
Fixpoint process_queue (fuel : nat) (image_queue : Queue) (log : list LogLine)
  : option (Queue * list LogLine) :=
  match fuel with
  | O => None
  | S fuel =>
      if negb (is_empty image_queue) then
        match get image_queue with
        | Some (url, image_queue) =>
            process_queue fuel image_queue (log ++ [process_queue_item url])
        | None => None
        end
      else Some (image_queue, log)
  end.

(** lines 275-281 *)
Definition feed_queue (urls : list string) (image_queue : Queue) : result Queue :=
  for_each (fun image_queue url => Ok (put url image_queue)) image_queue urls.

End WithDeps.
End Jupyter.

(** * Vocabulary of the statements *)

(** Every box of a detector output, in iteration order. *)
Definition all_boxes (results : list Results) : list Box :=
  concat (map boxes results).

(** [clampBox] of the specification: lines 243-244 of main.py. *)
Definition clamp (image : PIL.Image) (b : Z * Z * Z * Z) : Z * Z * Z * Z :=
  let '(x1, y1, x2, y2) := b in
  (Z.max 0 x1, Z.max 0 y1, Z.min (PIL.width image) x2, Z.min (PIL.height image) y2).

(** The test of line 247. *)
Definition degenerate (b : Z * Z * Z * Z) : bool :=
  let '(x1, y1, x2, y2) := b in (x2 <=? x1) || (y2 <=? y1).

(** A detection survives clamping. *)
Definition valid (image : PIL.Image) (box : Box) : bool :=
  negb (degenerate (clamp image (xyxy box))).

(** The crop of a surviving detection, padded: what the extraction of
    main.py and of price-project/modal_app.py is given. *)
Definition padded_crop (image : PIL.Image) (box : Box) : PIL.Image :=
  let '(x1, y1, x2, y2) := clamp image (xyxy box) in
  Main._pad_to_square
    {| PIL.mode := PIL.mode image; PIL.width := x2 - x1; PIL.height := y2 - y1;
       PIL.pixel := fun x y =>
         match PIL.getpixel image (x + x1) (y + y1) with
         | Some c => c
         | None => PIL.black
         end |} PIL.white.

(** The raw box of a detection, as a record stores it. *)
Definition raw (box : Box) : list Z := tolist (xyxy box).

(** Records that come, in order, from detections surviving the clamping:
    a detection that does not survive leaves no record, and the list is
    shorter than the detector's as soon as there is one. *)
Definition from_survivors (image : PIL.Image) (results : list Results)
  (tags : list PriceTagRecord) : Prop :=
  exists kept,
    sublist kept (filter (fun b => valid image b = true) (all_boxes results)) /\
    bbox <$> tags = raw <$> kept.

Section Records.
Context (D : Deps).

(** The record main.py appends for a surviving detection. *)
Definition main_tag (image : PIL.Image) (box : Box) : PriceTagRecord :=
  {| bbox := tolist (xyxy box);
     text := Main._extract_text D (padded_crop image box);
     confidence := round D (conf box) 3;
     class := default "price_tag" (names D !! cls box);
     error := None |}.

(** The record appended for a surviving detection whose text is [t]. *)
Definition modal_tag (box : Box) (t : string) : PriceTagRecord :=
  {| bbox := tolist (xyxy box);
     text := t;
     confidence := round D (conf box) 3;
     class := default "price_tag" (names D !! cls box);
     error := None |}.

(** What one detection adds: nothing when it does not survive clamping,
    nothing when [extract_text] raises. *)
Definition modal_pick (image : PIL.Image) (box : Box) : option PriceTagRecord :=
  if valid image box then
    match Modal.extract_text D (padded_crop image box) with
    | Ok t => Some (modal_tag box t)
    | Raise _ => None
    end
  else None.

(** The steps of one iteration that are outside the [try]: the class name
    and the image handed to the extraction. *)
Definition jupyter_prepare (image : PIL.Image) (box : Box)
  : result (string * PIL.Image) :=
  cropped_img ← PIL.crop image (xyxy box);
  class_name ← match names D !! cls box with
                | Some n => Ok n
                | None => Raise (Exception "KeyError" (pretty (cls box)))
                end;
  padded_img ← thumbnail D (Jupyter._pad_to_square cropped_img (255, 255, 255))
                 (1024, 1024);
  mret (class_name, padded_img).

(** The record appended once these steps are through: the extraction
    decides between the two shapes. *)
Definition jupyter_tag (box : Box) (p : string * PIL.Image) : PriceTagRecord :=
  match Jupyter.extract_text D p.2 with
  | Ok t =>
      {| bbox := tolist (xyxy box); text := t; confidence := conf box;
         class := p.1; error := None |}
  | Raise e =>
      {| bbox := tolist (xyxy box); text := ""; confidence := conf box;
         class := p.1; error := Some (str e) |}
  end.

(** The records of a list of detections, or the first exception of a
    step outside the [try]. *)
Fixpoint jupyter_tags (image : PIL.Image) (l : list Box)
  : result (list PriceTagRecord) :=
  match l with
  | [] => Ok []
  | box :: l' =>
      p ← jupyter_prepare image box;
      tags ← jupyter_tags image l';
      mret (jupyter_tag box p :: tags)
  end.

End Records.

(** A run that makes one assignment to the dictionary, for [job_id], of a
    terminal entry decided by [outcome], and touches nothing else. *)
Definition one_terminal_transition (job_id : string)
  (outcome : result ExtractionResult) (st st' : Store) : Prop :=
  exists j,
    terminal j = true /\
    j = match outcome with
        | Ok result => Completed result
        | Raise e => Failed (str e)
        end /\
    assignments st' = assignments st ++ [(job_id, j)] /\
    job_statuses st' !! job_id = Some j /\
    (forall k, k <> job_id -> job_statuses st' !! k = job_statuses st !! k) /\
    spawned st' = spawned st.

(** Powers of two with an integer exponent, as real numbers. *)
Definition bpow (e : Z) : R := powerRZ 2 e.

(** ** Spawned calls *)

(** The job a spawned call is for. *)
Definition spawn_job_id (c : Spawn) : string :=
  match c with
  | process_url_job_spawn job_id _ => job_id
  | process_file_job_spawn job_id _ => job_id
  end.

(** A spawned call of price-project/modal_app.py, run: the function it
    names on the arguments it was given. *)
Definition run (D : Deps) (c : Spawn) (st : Store) : Store :=
  match c with
  | process_url_job_spawn job_id url => Modal.process_url_job D job_id url st
  | process_file_job_spawn job_id file_data =>
      Modal.process_file_job D job_id file_data st
  end.

(** The calls of a schedule, run one after the other. *)
Definition run_all (D : Deps) (sched : list Spawn) (st : Store) : Store :=
  foldl (fun st c => run D c st) st sched.

(** The store of a fresh deployment. *)
Definition empty_store : Store :=
  {| job_statuses := ∅; assignments := []; spawned := [] |}.

(** The stores a deployment of price-project/modal_app.py can be in: any
    number of submissions, interleaved with runs of calls spawned
    earlier. *)
Inductive reachable (D : Deps) : Store -> Prop :=
| reach_empty : reachable D empty_store
| reach_submit_job_url request hex st :
    reachable D st -> reachable D (Modal.submit_job_url request hex st).2
| reach_submit_job contents hex st :
    reachable D st -> reachable D (Modal.submit_job contents hex st).2
| reach_run c st :
    reachable D st -> c ∈ spawned st -> reachable D (run D c st).

(** The entry a run leaves, given what its [try] computed. *)
Definition entry (outcome : result ExtractionResult) : Job :=
  match outcome with
  | Ok result => Completed result
  | Raise e => Failed (str e)
  end.

(** The extraction of price-project/modal_app.py returns on the crop of
    a detection. *)
Definition extracted (D : Deps) (image : PIL.Image) (box : Box) : bool :=
  is_ok (Modal.extract_text D (padded_crop image box)).

(** ** Test doubles *)

(** A single-colour RGB image. *)
Definition rgb (w h : Z) (c : PIL.color) : PIL.Image :=
  {| PIL.mode := "RGB"; PIL.width := w; PIL.height := h; PIL.pixel := fun _ _ => c |}.

(** A detection of class 0 with confidence 0.25. *)
Definition detection (b : Z * Z * Z * Z) : Box :=
  {| xyxy := b; conf := Float64.f0_25; cls := 0 |}.

(** Collaborators with canned answers: the detector returns [det], the OCR
    model answers with [ocr_], resizing keeps the pixels, the network is
    down. *)
Definition double (det : list Box) (ocr_ : PIL.Image -> result string) : Deps :=
  {| predict := fun _ _ => Ok [ {| boxes := det |} ];
     names := {[ 0 := "price_tag" ]};
     ocr := ocr_;
     resize := fun im sz =>
       Ok {| PIL.mode := PIL.mode im; PIL.width := fst sz; PIL.height := snd sz;
             PIL.pixel := PIL.pixel im |};
     thumbnail := fun im _ => Ok im;
     convert := fun im m =>
       Ok {| PIL.mode := m; PIL.width := PIL.width im; PIL.height := PIL.height im;
             PIL.pixel := PIL.pixel im |};
     Image_open := fun _ =>
       Raise (Exception "UnidentifiedImageError" "cannot identify image file");
     Image_fromarray := fun _ => Raise (Exception "TypeError" "Cannot handle this data type");
     requests_get := fun _ => Raise (Exception "ConnectionError" "Max retries exceeded");
     round := fun x _ => x |}.

Definition ocr_reads (t : string) : PIL.Image -> result string := fun _ => Ok t.
Definition ocr_fails : PIL.Image -> result string :=
  fun _ => Raise (Exception "RuntimeError" "CUDA out of memory").

(** The collaborators of [D] with the network up: every URL serves the
    same bytes, which decode to a white 10 x 10 image. *)
Definition online (D : Deps) : Deps :=
  {| predict := predict D; names := names D; ocr := ocr D; resize := resize D;
     thumbnail := thumbnail D; convert := convert D;
     Image_open := fun _ => Ok (rgb 10 10 PIL.white);
     Image_fromarray := Image_fromarray D;
     requests_get := fun _ => Ok {| status_code := 200; content := [] |};
     round := round D |}.

(** A store holding one submitted job. *)
Definition one_submitted : Store :=
  {| job_statuses := {[ "job_0123abcd" := Submitted ]};
     assignments := [("job_0123abcd", Submitted)];
     spawned := [process_url_job_spawn "job_0123abcd" (JStr "http://shop/tag.jpg")] |}.

(** A store in which a job has completed. *)
Definition one_completed : Store :=
  {| job_statuses := {[ "job_0123abcd" := Completed {| count := 0; price_tags := [] |} ]};
     assignments := [("job_0123abcd", Submitted);
                     ("job_0123abcd", Completed {| count := 0; price_tags := [] |})];
     spawned := [] |}.

(** A machine with [HF_TOKEN] set to [env], nothing on disk as far as
    [path_exists] tells, and libraries that load whatever they are given. *)
Definition loader (env : option string) : Loader :=
  {| environ_get := fun _ => env;
     path_exists := fun _ => false;
     mkdir := fun _ => Ok tt;
     hf_hub_download := fun _ filename _ local_dir => Ok (local_dir +:+ "/" +:+ filename);
     YOLO := fun path => Ok path;
     cuda_is_available := Ok false;
     AutoProcessor_from_pretrained := fun name _ _ => Ok name;
     AutoModel_from_pretrained := fun name _ _ _ => Ok name;
     model_eval := fun _ => Ok tt |}.

(** A hub that serves every file, and one that cannot be reached. *)
Definition hub_up : Hub := {| fetch := fun _ _ _ => Ok tt |}.
Definition hub_down : Hub :=
  {| fetch := fun _ _ _ => Raise (Exception "ConnectionError" "Max retries exceeded") |}.

(** * Properties *)

(** ** Geometry: padding to a square *)

Section Padding.
Implicit Types (img : PIL.Image) (bg : PIL.color).

Lemma getpixel_Some img x y :
  0 <= x < PIL.width img -> 0 <= y < PIL.height img ->
  PIL.getpixel img x y = Some (PIL.pixel img x y).
Proof.
  intros Hx Hy. unfold PIL.getpixel, PIL.in_bounds.
  replace (0 <=? x) with true by (symmetry; apply Z.leb_le; lia).
  replace (x <? PIL.width img) with true by (symmetry; apply Z.ltb_lt; lia).
  replace (0 <=? y) with true by (symmetry; apply Z.leb_le; lia).
  replace (y <? PIL.height img) with true by (symmetry; apply Z.ltb_lt; lia).
  reflexivity.
Qed.

Lemma getpixel_None img x y :
  ~ (0 <= x < PIL.width img /\ 0 <= y < PIL.height img) ->
  PIL.getpixel img x y = None.
Proof.
  intros H. unfold PIL.getpixel.
  destruct (PIL.in_bounds img x y) eqn:E; [|reflexivity].
  exfalso. apply H. unfold PIL.in_bounds in E.
  repeat (apply andb_prop in E; destruct E as [E ?]).
  rewrite ?Z.leb_le, ?Z.ltb_lt in *. lia.
Qed.

(** The square branch: the very image comes back. *)
Lemma pad_square img bg :
  PIL.width img = PIL.height img -> Main._pad_to_square img bg = img.
Proof.
  intros E. unfold Main._pad_to_square. simpl.
  apply Z.eqb_eq in E. rewrite E. reflexivity.
Qed.

(** The other branch, as the canvas the code builds. *)
Lemma pad_canvas img bg :
  PIL.width img <> PIL.height img ->
  Main._pad_to_square img bg =
    let side := Z.max (PIL.width img) (PIL.height img) in
    PIL.paste (PIL.new (PIL.mode img) (side, side) bg) img
      ((side - PIL.width img) / 2, (side - PIL.height img) / 2).
Proof.
  intros E. unfold Main._pad_to_square. simpl.
  apply Z.eqb_neq in E. rewrite E. reflexivity.
Qed.

(** Whatever the branch, the result is a square of side max(width, height). *)
Lemma pad_size img bg :
  PIL.size (Main._pad_to_square img bg) =
    (Z.max (PIL.width img) (PIL.height img), Z.max (PIL.width img) (PIL.height img)).
Proof.
  unfold Main._pad_to_square. simpl.
  destruct (PIL.width img =? PIL.height img) eqn:E.
  - apply Z.eqb_eq in E. unfold PIL.size. rewrite <- E, Z.max_id. reflexivity.
  - reflexivity.
Qed.

Lemma offset_bounds side dim :
  dim <= side -> 0 <= (side - dim) / 2 /\ (side - dim) / 2 + dim <= side.
Proof.
  intros H. split.
  - apply Z.div_pos; lia.
  - assert ((side - dim) / 2 <= side - dim) by (apply Z.div_le_upper_bound; lia).
    lia.
Qed.

End Padding.

(** C6: main.py's [_pad_to_square] returns a square image unchanged; any
    other image comes back as a square canvas of side max(width, height)
    in the background colour on which the original is pasted at offset
    floor((side - width) / 2), floor((side - height) / 2): inside the
    pasted region the pixels are those of the original, outside they are
    the background.  The canvas size and the mode are functions of the
    input alone. *)
Theorem pad_to_square_spec (img : PIL.Image) (bg : PIL.color) :
  let side := Z.max (PIL.width img) (PIL.height img) in
  let ox := (side - PIL.width img) / 2 in
  let oy := (side - PIL.height img) / 2 in
  (PIL.width img = PIL.height img -> Main._pad_to_square img bg = img) /\
  (PIL.width img <> PIL.height img ->
     Main._pad_to_square img bg =
       PIL.paste (PIL.new (PIL.mode img) (side, side) bg) img (ox, oy) /\
     PIL.size (Main._pad_to_square img bg) = (side, side) /\
     PIL.mode (Main._pad_to_square img bg) = PIL.mode img /\
     (0 <= ox /\ ox + PIL.width img <= side) /\
     (0 <= oy /\ oy + PIL.height img <= side) /\
     (forall x y, 0 <= x < PIL.width img -> 0 <= y < PIL.height img ->
        PIL.getpixel (Main._pad_to_square img bg) (x + ox) (y + oy) =
          Some (PIL.pixel img x y)) /\
     (forall x y, 0 <= x < side -> 0 <= y < side ->
        ~ (ox <= x < ox + PIL.width img /\ oy <= y < oy + PIL.height img) ->
        PIL.getpixel (Main._pad_to_square img bg) x y = Some bg)) /\
  (forall img' bg', PIL.size img' = PIL.size img ->
     PIL.size (Main._pad_to_square img' bg') = PIL.size (Main._pad_to_square img bg)).
Proof.
  intros side ox oy. split; [apply pad_square|]. split.
  - intros Hne.
    pose proof (offset_bounds side (PIL.width img) (Z.le_max_l _ _)) as Hox.
    pose proof (offset_bounds side (PIL.height img) (Z.le_max_r _ _)) as Hoy.
    fold ox in Hox. fold oy in Hoy.
    rewrite (pad_canvas img bg Hne). cbv zeta. fold side ox oy.
    repeat split; try tauto.
    + intros x y Hx Hy.
      rewrite getpixel_Some by (simpl; lia). simpl.
      replace (x + ox - ox) with x by lia. replace (y + oy - oy) with y by lia.
      rewrite getpixel_Some by assumption. reflexivity.
    + intros x y Hx Hy Hout.
      rewrite getpixel_Some by (simpl; lia). simpl.
      rewrite getpixel_None; [reflexivity|]. lia.
  - intros img' bg' Hsz. rewrite !pad_size.
    unfold PIL.size in Hsz. injection Hsz as -> ->. reflexivity.
Qed.

(** A 4 x 2 image of one colour and its padding to 4 x 4. *)
Lemma pad_to_square_spec_witness :
  PIL.size (Main._pad_to_square (rgb 4 2 PIL.black) PIL.white) = (4, 4) /\
  PIL.getpixel (Main._pad_to_square (rgb 4 2 PIL.black) PIL.white) (3 + 0) (1 + 1)
    = Some PIL.black /\
  PIL.getpixel (Main._pad_to_square (rgb 4 2 PIL.black) PIL.white) 3 0
    = Some PIL.white.
Proof.
  destruct (pad_to_square_spec (rgb 4 2 PIL.black) PIL.white)
    as (_ & Hpad & _).
  destruct Hpad as (_ & Hsize & _ & _ & _ & Hin & Hout); [simpl; lia|].
  split; [exact Hsize|]. split.
  - apply (Hin 3 1); simpl; lia.
  - apply (Hout 3 0); simpl; [lia | lia |].
    change ((4 `max` 2 - 4) `div` 2) with 0.
    change ((4 `max` 2 - 2) `div` 2) with 1. lia.
Defined.

(** The jupyter copy returns a square image as it is, and a square in
    every branch. *)
Lemma jupyter_pad_square (img : PIL.Image) (bg : PIL.color) :
  PIL.width img = PIL.height img -> Jupyter._pad_to_square img bg = img.
Proof.
  intros E. unfold Jupyter._pad_to_square. simpl.
  apply Z.eqb_eq in E. rewrite E. reflexivity.
Qed.

Lemma jupyter_pad_is_square (img : PIL.Image) (bg : PIL.color) :
  PIL.width (Jupyter._pad_to_square img bg)
    = PIL.height (Jupyter._pad_to_square img bg).
Proof.
  unfold Jupyter._pad_to_square. simpl.
  destruct (PIL.width img =? PIL.height img) eqn:E.
  - apply Z.eqb_eq. exact E.
  - destruct (PIL.width img >? PIL.height img); reflexivity.
Qed.

(** C8: padding an image that was already padded changes nothing, in each
    of the three copies (whatever the second background colour). *)
Theorem pad_to_square_idempotent (img : PIL.Image) (bg bg' : PIL.color) :
  Main._pad_to_square (Main._pad_to_square img bg) bg' = Main._pad_to_square img bg /\
  Modal._pad_to_square (Modal._pad_to_square img bg) bg' = Modal._pad_to_square img bg /\
  Jupyter._pad_to_square (Jupyter._pad_to_square img bg) bg'
    = Jupyter._pad_to_square img bg.
Proof.
  assert (PIL.width (Main._pad_to_square img bg)
          = PIL.height (Main._pad_to_square img bg)) as Hsq.
  { pose proof (pad_size img bg) as H. unfold PIL.size in H.
    injection H as -> ->. reflexivity. }
  repeat split.
  - apply pad_square. exact Hsq.
  - change Modal._pad_to_square with Main._pad_to_square.
    apply pad_square. exact Hsq.
  - apply jupyter_pad_square, jupyter_pad_is_square.
Qed.

(** C10: the copy with one branch per longer axis (jupyter) and the copies
    with a single max-side canvas (main.py, price-project/modal_app.py)
    return the same image for every image and background colour. *)
Theorem pad_to_square_copies_agree (img : PIL.Image) (bg : PIL.color) :
  Jupyter._pad_to_square img bg = Main._pad_to_square img bg /\
  Modal._pad_to_square img bg = Main._pad_to_square img bg.
Proof.
  split; [|reflexivity].
  unfold Jupyter._pad_to_square, Main._pad_to_square. simpl.
  destruct (PIL.width img =? PIL.height img) eqn:E; [reflexivity|].
  apply Z.eqb_neq in E.
  destruct (PIL.width img >? PIL.height img) eqn:G.
  - assert (PIL.height img < PIL.width img) as L by (apply Z.gtb_lt; exact G).
    rewrite Z.max_l by lia.
    replace (PIL.width img - PIL.width img) with 0 by lia. reflexivity.
  - assert (PIL.width img < PIL.height img) as L.
    { rewrite Z.gtb_ltb in G. apply Z.ltb_ge in G. lia. }
    rewrite Z.max_r by lia.
    replace (PIL.height img - PIL.height img) with 0 by lia. reflexivity.
Qed.

(** ** Geometry: rounding in binary64

    The size handed to [resize] goes through one division and one
    multiplication of floats and a truncation.  The lemmas below follow a
    positive mantissa through [binary_round_aux]: the shift that brings it
    back to 53 bits drops less than one unit in the last place, and the
    rounding adds at most one.  That bounds the error of each operation by
    a few units of 2^-52 relative to the exact value, which is far less
    than the gap between two fractions of denominator below 2^31. *)

Section Rounding.
Local Abbreviation prec := Float64.prec.
Local Abbreviation emax := Float64.emax.

(** The number of binary digits of a positive number. *)
Lemma digits2_pos_size p : digits2_pos p = Pos.size p.
Proof. induction p; simpl; congruence. Qed.

Lemma digits2_pos_bounds p :
  2 ^ (Z.pos (digits2_pos p) - 1) <= Z.pos p < 2 ^ Z.pos (digits2_pos p).
Proof.
  rewrite digits2_pos_size. split.
  - pose proof (Pos.size_le p) as H.
    assert (Z.pos (2 ^ Pos.size p) <= Z.pos p~0) as H' by exact H.
    rewrite Pos2Z.inj_pow in H'. change (Z.pos p~0) with (2 * Z.pos p) in H'.
    replace (Z.pos (Pos.size p)) with (Z.succ (Z.pos (Pos.size p) - 1)) in H' by lia.
    rewrite Z.pow_succ_r in H' by lia. lia.
  - pose proof (Pos.size_gt p) as H.
    assert (Z.pos p < Z.pos (2 ^ Pos.size p)) as H' by exact H.
    rewrite Pos2Z.inj_pow in H'. exact H'.
Qed.

(** A number between 2^(d-1) and 2^d has [d] digits. *)
Lemma Zdigits2_unique z d :
  2 ^ (d - 1) <= z < 2 ^ d -> 0 < d -> Zdigits2 z = d.
Proof.
  intros [Hlo Hhi] Hd.
  assert (0 < z) as Hz by (pose proof (Z.pow_pos_nonneg 2 (d - 1)); lia).
  destruct z as [|p|p]; try lia. simpl.
  pose proof (digits2_pos_bounds p) as [Hlo' Hhi'].
  set (d' := Z.pos (digits2_pos p)) in *.
  assert (d - 1 < d') by (apply (Z.pow_lt_mono_r_iff 2); lia).
  assert (d' - 1 < d) by (apply (Z.pow_lt_mono_r_iff 2); lia).
  lia.
Qed.

(** One shift to the right halves the mantissa; [n] shifts divide it by
    2^n. *)
Lemma shr_1_m mrs : 0 <= shr_m mrs -> shr_m (shr_1 mrs) = shr_m mrs / 2.
Proof.
  destruct mrs as [m r s]. cbn [shr_m]. intros Hm.
  destruct m as [|[p|p|]|p]; cbn [shr_1 shr_m]; try lia; try reflexivity.
  - change (Z.pos p~1) with (2 * Z.pos p + 1).
    apply Z.div_unique with 1; lia.
  - change (Z.pos p~0) with (2 * Z.pos p).
    apply Z.div_unique with 0; lia.
Qed.

Lemma iter_pos_shr_1_m p : forall mrs,
  0 <= shr_m mrs ->
  shr_m (SpecFloat.iter_pos shr_1 p mrs) = shr_m mrs / 2 ^ Z.pos p.
Proof.
  induction p as [p IH|p IH|]; intros mrs Hm.
  - change (SpecFloat.iter_pos shr_1 p~1 mrs)
      with (SpecFloat.iter_pos shr_1 p (SpecFloat.iter_pos shr_1 p (shr_1 mrs))).
    assert (0 <= shr_m (shr_1 mrs)) as H1 by (rewrite shr_1_m by lia; apply Z.div_pos; lia).
    assert (0 <= shr_m (SpecFloat.iter_pos shr_1 p (shr_1 mrs))) as H2
      by (rewrite IH by lia; apply Z.div_pos; [lia | apply Z.pow_pos_nonneg; lia]).
    rewrite IH, IH, shr_1_m by lia.
    rewrite !Z.div_div by (try apply Z.pow_pos_nonneg; lia).
    f_equal. change (Z.pos p~1) with (2 * Z.pos p + 1).
    replace (2 * Z.pos p + 1) with (1 + Z.pos p + Z.pos p) by lia.
    rewrite !Z.pow_add_r by lia. lia.
  - change (SpecFloat.iter_pos shr_1 p~0 mrs)
      with (SpecFloat.iter_pos shr_1 p (SpecFloat.iter_pos shr_1 p mrs)).
    assert (0 <= shr_m (SpecFloat.iter_pos shr_1 p mrs)) as H2
      by (rewrite IH by lia; apply Z.div_pos; [lia | apply Z.pow_pos_nonneg; lia]).
    rewrite IH, IH by lia.
    rewrite !Z.div_div by (try apply Z.pow_pos_nonneg; lia).
    f_equal. change (Z.pos p~0) with (2 * Z.pos p).
    replace (2 * Z.pos p) with (Z.pos p + Z.pos p) by lia.
    rewrite !Z.pow_add_r by lia. lia.
  - change (SpecFloat.iter_pos shr_1 1 mrs) with (shr_1 mrs).
    rewrite shr_1_m by lia. reflexivity.
Qed.

Lemma shr_m_e mrs e n :
  0 <= shr_m mrs -> 0 <= n ->
  shr_m (fst (shr mrs e n)) = shr_m mrs / 2 ^ n /\ snd (shr mrs e n) = e + n.
Proof.
  intros Hm Hn. destruct n as [|p|p]; try lia; simpl.
  - rewrite Z.div_1_r. lia.
  - split; [apply iter_pos_shr_1_m; lia | reflexivity].
Qed.

Lemma shr_record_of_loc_m m l : shr_m (shr_record_of_loc m l) = m.
Proof. destruct l as [|[]]; reflexivity. Qed.

(** Rounding to nearest keeps the mantissa or adds one. *)
Lemma round_nearest_even_cases m l :
  round_nearest_even m l = m \/ round_nearest_even m l = m + 1.
Proof.
  destruct l as [|[]]; simpl; auto. destruct (Z.even m); auto.
Qed.

(** Away from the subnormal range the exponent of a number of magnitude
    [k] is [k - prec]. *)
Lemma fexp_normal k : 3 - emax - prec <= k - prec -> fexp prec emax k = k - prec.
Proof. unfold fexp, emin. lia. Qed.

(** Rounding a positive mantissa of [53 + n] digits: what comes out. *)
Lemma binary_round_aux_pos mx ex lx n :
  0 <= n -> 2 ^ (52 + n) <= mx < 2 ^ (53 + n) ->
  3 - emax - prec <= ex + n -> ex + n + 1 <= emax - prec ->
  exists M E m,
    binary_round_aux prec emax false mx ex lx = S754_finite false M E /\
    (m = mx / 2 ^ n \/ m = mx / 2 ^ n + 1) /\
    (n = 0 -> lx = loc_Exact -> m = mx) /\
    2 ^ 52 <= Z.pos M < 2 ^ 53 /\
    ((Z.pos M = m /\ E = ex + n) \/ (m = 2 ^ 53 /\ Z.pos M = 2 ^ 52 /\ E = ex + n + 1)).
Proof.
  intros Hn Hmx Hlo Hhi.
  assert (0 < mx) as Hpos by (pose proof (Z.pow_pos_nonneg 2 (52 + n)); lia).
  assert (Zdigits2 mx = 53 + n) as Hd.
  { apply Zdigits2_unique; [|lia]. replace (53 + n - 1) with (52 + n) by lia. exact Hmx. }
  unfold binary_round_aux, shr_fexp.
  rewrite Hd. rewrite fexp_normal by (unfold prec, emax in *; lia).
  replace (53 + n + ex - prec - ex) with n by (unfold prec; lia).
  pose proof (shr_m_e (shr_record_of_loc mx lx) ex n) as H1.
  rewrite shr_record_of_loc_m in H1. specialize (H1 ltac:(lia) Hn).
  assert (n = 0 -> lx = loc_Exact ->
          shr (shr_record_of_loc mx lx) ex n
          = ({| shr_m := mx; shr_r := false; shr_s := false |}, ex)) as Hex
    by (intros -> ->; reflexivity).
  destruct (shr (shr_record_of_loc mx lx) ex n) as [mrs' e'].
  simpl in H1. destruct H1 as [Hm' ->].
  set (m := round_nearest_even (shr_m mrs') (loc_of_shr_record mrs')).
  assert (m = mx / 2 ^ n \/ m = mx / 2 ^ n + 1) as Hm.
  { unfold m. rewrite <- Hm'. apply round_nearest_even_cases. }
  assert (n = 0 -> lx = loc_Exact -> m = mx) as Hexact.
  { intros H0 Hl. specialize (Hex H0 Hl). injection Hex as -> _. reflexivity. }
  assert (2 ^ 52 <= mx / 2 ^ n < 2 ^ 53) as Hq.
  { assert (0 < 2 ^ n) by (apply Z.pow_pos_nonneg; lia).
    rewrite !Z.pow_add_r in Hmx by lia. split.
    - apply Z.div_le_lower_bound; lia.
    - apply Z.div_lt_upper_bound; lia. }
  destruct (Z.eq_dec m (2 ^ 53)) as [Htop|Htop].
  - (* the mantissa overflowed: one more shift *)
    assert (Zdigits2 m = 54) as Hd' by (rewrite Htop; reflexivity).
    rewrite Hd'. rewrite fexp_normal by (unfold prec, emax in *; lia).
    replace (54 + (ex + n) - prec - (ex + n)) with 1 by (unfold prec; lia).
    rewrite Htop. simpl.
    replace (ex + n + 1 <=? emax - prec) with true by (symmetry; apply Z.leb_le; lia).
    exists 4503599627370496%positive, (ex + n + 1), m.
    split; [reflexivity|]. split; [exact Hm|]. split; [exact Hexact|]. split; [lia|].
    right. split; [exact Htop|]. split; reflexivity.
  - assert (2 ^ 52 <= m < 2 ^ 53) as Hm53 by lia.
    assert (Zdigits2 m = 53) as Hd' by (apply Zdigits2_unique; [exact Hm53 | lia]).
    rewrite Hd'. rewrite fexp_normal by (unfold prec, emax in *; lia).
    replace (53 + (ex + n) - prec - (ex + n)) with 0 by (unfold prec; lia).
    simpl. destruct m as [|M|M] eqn:HM; try lia.
    replace (ex + n <=? emax - prec) with true by (symmetry; apply Z.leb_le; lia).
    exists M, (ex + n), (Z.pos M).
    split; [reflexivity|]. split; [exact Hm|]. split; [exact Hexact|]. split; [lia|].
    left. split; reflexivity.
Qed.

(** The left shift that [shl_align] applies. *)
Lemma iter_xO p k : Z.pos (Pos.iter xO p k) = Z.pos p * 2 ^ Z.pos k.
Proof.
  induction k as [|k IH] using Pos.peano_ind.
  - simpl. lia.
  - rewrite Pos.iter_succ. change (Z.pos (Pos.iter xO p k)~0) with (2 * Z.pos (Pos.iter xO p k)).
    rewrite IH, Pos2Z.inj_succ, Z.pow_succ_r by lia. lia.
Qed.

(** *** Values as real numbers *)

Local Open Scope R_scope.

Lemma bpow_pos e : 0 < bpow e.
Proof. apply powerRZ_lt. lra. Qed.

Lemma bpow_add a b : bpow (a + b) = bpow a * bpow b.
Proof. apply powerRZ_add. lra. Qed.

Lemma bpow_IZR e : (0 <= e)%Z -> bpow e = IZR (2 ^ e).
Proof.
  intros He. unfold bpow. destruct e as [|p|p]; try lia; [reflexivity|].
  change (2 ^ Z.pos p)%Z with (Z.pow_pos 2 p).
  rewrite Zpower_pos_powerRZ. reflexivity.
Qed.

(** The value of a rounded positive mantissa: within one unit in the last
    place of the mantissa given. *)
Lemma binary_round_aux_value mx ex lx n :
  (0 <= n)%Z -> (2 ^ (52 + n) <= mx < 2 ^ (53 + n))%Z ->
  (3 - emax - prec <= ex + n)%Z -> (ex + n + 1 <= emax - prec)%Z ->
  exists M E,
    binary_round_aux prec emax false mx ex lx = S754_finite false M E /\
    (2 ^ 52 <= Z.pos M < 2 ^ 53)%Z /\
    (ex + n <= E <= ex + n + 1)%Z /\
    IZR mx * bpow ex - bpow (ex + n) <= IZR (Z.pos M) * bpow E
      <= IZR mx * bpow ex + bpow (ex + n) /\
    (n = 0%Z -> lx = loc_Exact -> IZR (Z.pos M) * bpow E = IZR mx * bpow ex).
Proof.
  intros Hn Hmx Hlo Hhi.
  destruct (binary_round_aux_pos mx ex lx n Hn Hmx Hlo Hhi)
    as (M & E & m & Heq & Hm & Hexact & HM & Hcase).
  exists M, E. split; [exact Heq|]. split; [exact HM|].
  assert (IZR (Z.pos M) * bpow E = IZR m * bpow (ex + n)) as Hval.
  { destruct Hcase as [[-> ->]|(-> & -> & ->)]; [reflexivity|].
    rewrite (bpow_add (ex + n) 1).
    assert (bpow 1 = 2) as -> by (unfold bpow; simpl; lra).
    change (2 ^ 53)%Z with (2 * 2 ^ 52)%Z. rewrite mult_IZR. lra. }
  split; [destruct Hcase as [[_ ->]|(_ & _ & ->)]; lia|].
  rewrite Hval. rewrite (bpow_add ex n).
  assert (0 < 2 ^ n)%Z as H2n by (apply Z.pow_pos_nonneg; lia).
  pose proof (Z.mul_div_le mx (2 ^ n) H2n) as Hle.
  pose proof (Z.mul_succ_div_gt mx (2 ^ n) H2n) as Hgt.
  pose proof (bpow_pos ex) as Hex. pose proof (bpow_pos n) as Hbn.
  rewrite (bpow_IZR n) in * by lia.
  set (q := (mx / 2 ^ n)%Z) in *.
  assert (IZR (2 ^ n) * IZR q <= IZR mx) as Hle'
    by (rewrite <- mult_IZR; apply IZR_le; lia).
  assert (IZR mx < IZR (2 ^ n) * (IZR q + 1)) as Hgt'.
  { rewrite <- plus_IZR, <- mult_IZR. apply IZR_lt. lia. }
  split.
  - split.
    + destruct Hm as [-> | ->]; rewrite ?plus_IZR; nra.
    + destruct Hm as [-> | ->]; rewrite ?plus_IZR; nra.
  - intros H0 Hl. rewrite (Hexact H0 Hl). subst n.
    change (2 ^ 0)%Z with 1%Z. lra.
Qed.

(** A mantissa of [k + 1] digits, as a real number. *)
Lemma bpow_mantissa M k :
  (2 ^ k <= Z.pos M < 2 ^ (k + 1))%Z -> (0 <= k)%Z ->
  bpow k <= IZR (Z.pos M) < bpow (k + 1).
Proof.
  intros [Hlo Hhi] Hk. rewrite !bpow_IZR by lia.
  split; [apply IZR_le | apply IZR_lt]; assumption.
Qed.

(** The product of two positive normal floats is off by at most 2^-52 of
    itself. *)
Lemma SFmul_pos M1 E1 M2 E2 :
  (2 ^ 52 <= Z.pos M1 < 2 ^ 53)%Z -> (2 ^ 52 <= Z.pos M2 < 2 ^ 53)%Z ->
  (-1000 <= E1 + E2 <= 900)%Z ->
  exists M E,
    SFmul prec emax (S754_finite false M1 E1) (S754_finite false M2 E2)
      = S754_finite false M E /\
    (2 ^ 52 <= Z.pos M < 2 ^ 53)%Z /\
    let x := (IZR (Z.pos M1) * bpow E1) * (IZR (Z.pos M2) * bpow E2) in
    x * (1 - bpow (-52)) <= IZR (Z.pos M) * bpow E <= x * (1 + bpow (-52)).
Proof.
  intros H1 H2 HE. cbn [SFmul xorb].
  assert (2 ^ 104 <= Z.pos (M1 * M2) < 2 ^ 106)%Z as Hprod.
  { rewrite Pos2Z.inj_mul.
    change (2 ^ 104)%Z with (2 ^ 52 * 2 ^ 52)%Z.
    change (2 ^ 106)%Z with (2 ^ 53 * 2 ^ 53)%Z. nia. }
  assert (exists n, (52 <= n <= 53)%Z /\
            (2 ^ (52 + n) <= Z.pos (M1 * M2) < 2 ^ (53 + n))%Z) as (n & Hn & Hmx).
  { destruct (Z_lt_le_dec (Z.pos (M1 * M2)) (2 ^ 105)).
    - exists 52%Z. split; [lia|]. change (52 + 52)%Z with 104%Z.
      change (53 + 52)%Z with 105%Z. lia.
    - exists 53%Z. split; [lia|]. change (52 + 53)%Z with 105%Z.
      change (53 + 53)%Z with 106%Z. lia. }
  destruct (binary_round_aux_value (Z.pos (M1 * M2)) (E1 + E2) loc_Exact n)
    as (M & E & Heq & HM & _ & Hval & _);
    [lia | exact Hmx | unfold emax, prec; lia | unfold emax, prec; lia |].
  exists M, E. split; [exact Heq|]. split; [exact HM|].
  cbv zeta. rewrite Pos2Z.inj_mul, mult_IZR in Hval.
  rewrite (bpow_add E1 E2) in Hval. rewrite (bpow_add (E1 + E2) n), (bpow_add E1 E2) in Hval.
  assert (bpow n <= IZR (Z.pos M1) * IZR (Z.pos M2) * bpow (-52)) as Hulp.
  { assert (bpow (52 + n) <= IZR (Z.pos M1) * IZR (Z.pos M2)) as Hb.
    { rewrite <- mult_IZR, <- Pos2Z.inj_mul, bpow_IZR by lia. apply IZR_le. lia. }
    replace n with (52 + n + -52)%Z at 1 by lia. rewrite (bpow_add (52 + n) (-52)).
    pose proof (bpow_pos (-52)). nra. }
  pose proof (bpow_pos E1). pose proof (bpow_pos E2).
  assert (0 < bpow E1 * bpow E2) as Hpos by nra.
  assert (bpow E1 * bpow E2 * bpow n
          <= bpow E1 * bpow E2 * (IZR (Z.pos M1) * IZR (Z.pos M2) * bpow (-52))) as Hu
    by (apply Rmult_le_compat_l; lra).
  split; lra.
Qed.

(** The quotient of two positive normal floats is off by at most 2^-50 of
    itself: [y * fl(x / y)] is that close to [x]. *)
Lemma SFdiv_pos M1 E1 M2 E2 :
  (2 ^ 52 <= Z.pos M1 < 2 ^ 53)%Z -> (2 ^ 52 <= Z.pos M2 < 2 ^ 53)%Z ->
  (-1000 <= E1 - E2 <= 1000)%Z ->
  exists M E,
    SFdiv prec emax (S754_finite false M1 E1) (S754_finite false M2 E2)
      = S754_finite false M E /\
    (2 ^ 52 <= Z.pos M < 2 ^ 53)%Z /\
    (E1 - E2 - 53 <= E <= E1 - E2 - 51)%Z /\
    let x := IZR (Z.pos M1) * bpow E1 in
    let y := IZR (Z.pos M2) * bpow E2 in
    x * (1 - bpow (-50)) <= y * (IZR (Z.pos M) * bpow E) <= x * (1 + bpow (-50)).
Proof.
  intros H1 H2 HE. cbn [SFdiv xorb]. unfold SFdiv_core_binary.
  rewrite (Zdigits2_unique (Z.pos M1) 53) by (change (53 - 1)%Z with 52%Z; lia).
  rewrite (Zdigits2_unique (Z.pos M2) 53) by (change (53 - 1)%Z with 52%Z; lia).
  rewrite fexp_normal by (unfold emax, prec; lia).
  replace (Z.min (53 + E1 - (53 + E2) - prec) (E1 - E2))%Z with (E1 - E2 - 53)%Z
    by (unfold prec; lia).
  replace (E1 - E2 - (E1 - E2 - 53))%Z with 53%Z by lia.
  rewrite Z.shiftl_mul_pow2 by lia.
  set (e' := (E1 - E2 - 53)%Z).
  pose proof (Z.div_eucl_eq (Z.pos M1 * 2 ^ 53) (Z.pos M2) ltac:(lia)) as Heucl.
  pose proof (Z.mod_pos_bound (Z.pos M1 * 2 ^ 53) (Z.pos M2) ltac:(lia)) as Hmod.
  unfold Z.modulo in Hmod.
  destruct (Z.div_eucl (Z.pos M1 * 2 ^ 53) (Z.pos M2)) as [q r].
  assert (2 ^ 52 <= q < 2 ^ 54)%Z as Hq.
  { change (2 ^ 54)%Z with (2 * 2 ^ 53)%Z. change (2 ^ 53)%Z with (2 * 2 ^ 52)%Z in *.
    nia. }
  assert (exists n, (0 <= n <= 1)%Z /\ (2 ^ (52 + n) <= q < 2 ^ (53 + n))%Z)
    as (n & Hn & Hmx).
  { destruct (Z_lt_le_dec q (2 ^ 53)).
    - exists 0%Z. split; [lia|]. change (52 + 0)%Z with 52%Z.
      change (53 + 0)%Z with 53%Z. lia.
    - exists 1%Z. split; [lia|]. change (52 + 1)%Z with 53%Z.
      change (53 + 1)%Z with 54%Z. lia. }
  destruct (binary_round_aux_value q e' (new_location (Z.pos M2) r) n)
    as (M & E & Heq & HM & HEb & Hval & _);
    [lia | exact Hmx | unfold emax, prec, e'; lia | unfold emax, prec, e'; lia |].
  exists M, E. split; [exact Heq|]. split; [exact HM|].
  split; [unfold e' in HEb; lia|].
  cbv zeta.
  (* the quotient as a real *)
  assert (IZR (Z.pos M2) * IZR q <= IZR (Z.pos M1) * bpow 53
          < IZR (Z.pos M2) * (IZR q + 1)) as Hqr.
  { rewrite bpow_IZR by lia. rewrite <- plus_IZR, <- !mult_IZR.
    split; [apply IZR_le | apply IZR_lt]; lia. }
  assert (bpow E1 = bpow 53 * bpow E2 * bpow e') as HE1.
  { rewrite <- !bpow_add. f_equal. unfold e'. lia. }
  assert (bpow (e' + n) <= 2 * bpow e') as Hn2.
  { rewrite bpow_add. pose proof (bpow_pos e').
    assert (bpow n <= 2).
    { destruct Hn as [? ?]. assert (n = 0 \/ n = 1)%Z as [-> | ->] by lia;
        unfold bpow; simpl; lra. }
    nra. }
  pose proof (bpow_pos e') as He'. pose proof (bpow_pos E2) as HE2.
  pose proof (bpow_pos 53) as H53.
  assert (bpow 52 <= IZR (Z.pos M2) < bpow 53) as HbM2
    by (apply (bpow_mantissa M2 52); [exact H2 | lia]).
  assert (bpow 52 <= IZR (Z.pos M1) < bpow 53) as HbM1
    by (apply (bpow_mantissa M1 52); [exact H1 | lia]).
  assert (bpow 52 = 4503599627370496) as Hb52 by (unfold bpow; simpl; lra).
  assert (bpow 53 = 9007199254740992) as Hb53 by (unfold bpow; simpl; lra).
  assert (bpow (-50) = / 1125899906842624) as Hb50 by (unfold bpow; simpl; lra).
  rewrite HE1.
  set (V := IZR (Z.pos M) * bpow E) in *.
  set (m1 := IZR (Z.pos M1)) in *. set (m2 := IZR (Z.pos M2)) in *.
  set (b := bpow e') in *. set (c := bpow E2) in *.
  (* V is within 3 b of q b, and m2 q b within m2 b of m1 2^53 b *)
  assert (IZR q * b - 2 * b <= V <= IZR q * b + 2 * b) as HV by lra.
  assert (m2 * (IZR q * b) <= m1 * bpow 53 * b < m2 * (IZR q * b) + m2 * b) as HQ.
  { split; nra. }
  assert (m2 * b <= m1 * bpow 53 * b * / 4503599627370496) as Hrel.
  { rewrite Hb53. assert (m2 * b <= 2 * m1 * b) by nra. lra. }
  rewrite Hb50.
  assert (0 < c) by exact HE2.
  assert (0 < m2) by lra.
  split.
  - apply Rle_trans with (m2 * c * (IZR q * b - 2 * b)); [|apply Rmult_le_compat_l; nra].
    assert (m1 * bpow 53 * b * (1 - / 1125899906842624) <= m2 * (IZR q * b - 2 * b)).
    { lra. }
    nra.
  - apply Rle_trans with (m2 * c * (IZR q * b + 2 * b)); [apply Rmult_le_compat_l; nra|].
    assert (m2 * (IZR q * b + 2 * b) <= m1 * bpow 53 * b * (1 + / 1125899906842624)).
    { lra. }
    nra.
Qed.

(** [float(n)] is exact below 2^53. *)
Lemma of_int_pos n :
  (0 < n < 2 ^ 53)%Z ->
  exists M E,
    Float64.of_int n = S754_finite false M E /\
    (2 ^ 52 <= Z.pos M < 2 ^ 53)%Z /\
    (-52 <= E <= 0)%Z /\
    IZR (Z.pos M) * bpow E = IZR n.
Proof.
  intros Hn. destruct n as [|p|p]; try lia.
  unfold Float64.of_int, binary_normalize, binary_round.
  pose proof (digits2_pos_bounds p) as Hd.
  set (d := Z.pos (digits2_pos p)) in *.
  assert (1 <= d <= 53)%Z as Hd53.
  { split; [unfold d; lia|].
    assert (d - 1 < 53)%Z by (apply (Z.pow_lt_mono_r_iff 2); lia). lia. }
  rewrite fexp_normal by (unfold emax, prec; lia).
  assert (exists mz,
            shl_align p 0 (d + 0 - prec) = (mz, (d - 53)%Z) /\
            Z.pos mz = (Z.pos p * 2 ^ (53 - d))%Z) as (mz & -> & Hmz).
  { unfold shl_align. replace (d + 0 - prec - 0)%Z with (d - 53)%Z by (unfold prec; lia).
    destruct (d - 53)%Z as [|k|k] eqn:Hk; try lia.
    - exists p. split; [f_equal; lia|]. replace (53 - d)%Z with 0%Z by lia. lia.
    - exists (Pos.iter xO p k). split; [f_equal; unfold prec; lia|].
      rewrite iter_xO. f_equal. f_equal. lia. }
  assert (2 ^ 52 <= Z.pos mz < 2 ^ 53)%Z as Hmz53.
  { rewrite Hmz.
    assert (2 ^ 52 = 2 ^ (d - 1) * 2 ^ (53 - d))%Z as ->
      by (rewrite <- Z.pow_add_r by lia; f_equal; lia).
    assert (2 ^ 53 = 2 ^ d * 2 ^ (53 - d))%Z as ->
      by (rewrite <- Z.pow_add_r by lia; f_equal; lia).
    assert (0 < 2 ^ (53 - d))%Z by (apply Z.pow_pos_nonneg; lia).
    split; [apply Z.mul_le_mono_nonneg_r | apply Z.mul_lt_mono_pos_r]; lia. }
  destruct (binary_round_aux_pos (Z.pos mz) (d - 53) loc_Exact 0)
    as (M & E & m & Heq & _ & Hexact & HM & Hcase);
    [lia | exact Hmz53 | unfold emax, prec; lia | unfold emax, prec; lia |].
  specialize (Hexact eq_refl eq_refl). subst m.
  destruct Hcase as [[HMm ->]|(Htop & _)]; [|lia].
  exists M, (d - 53 + 0)%Z. split; [exact Heq|]. split; [exact HM|]. split; [lia|].
  rewrite HMm, Hmz, mult_IZR, <- bpow_IZR by lia.
  rewrite Rmult_assoc, <- bpow_add.
  replace (53 - d + (d - 53 + 0))%Z with 0%Z by lia.
  unfold bpow. simpl. lra.
Qed.

(** [int(x)] is the integer part of a positive float. *)
Lemma int_floor M E :
  exists z,
    Float64.int (S754_finite false M E) = Ok z /\
    IZR z <= IZR (Z.pos M) * bpow E < IZR z + 1.
Proof.
  unfold Float64.int. cbn [cond_Zopp].
  destruct (Z.leb_spec 0 E) as [HE|HE].
  - exists (Z.pos M * 2 ^ E)%Z. split; [reflexivity|].
    rewrite mult_IZR, <- bpow_IZR by lia. lra.
  - exists (Z.pos M / 2 ^ (- E))%Z. split; [reflexivity|].
    assert (0 < 2 ^ (- E))%Z as Hp by (apply Z.pow_pos_nonneg; lia).
    pose proof (Z.mul_div_le (Z.pos M) _ Hp) as Hle.
    pose proof (Z.mul_succ_div_gt (Z.pos M) _ Hp) as Hgt.
    set (z := (Z.pos M / 2 ^ (- E))%Z) in *.
    assert (bpow E * IZR (2 ^ (- E)) = 1) as Hinv.
    { rewrite <- bpow_IZR, <- bpow_add by lia.
      replace (E + - E)%Z with 0%Z by lia. reflexivity. }
    assert (IZR (2 ^ (- E)) * IZR z <= IZR (Z.pos M)) as Hle'
      by (rewrite <- mult_IZR; apply IZR_le; lia).
    assert (IZR (Z.pos M) < IZR (2 ^ (- E)) * (IZR z + 1)) as Hgt'.
    { rewrite <- plus_IZR, <- mult_IZR. apply IZR_lt. lia. }
    pose proof (bpow_pos E) as HbE.
    split.
    + apply Rle_trans with (bpow E * (IZR (2 ^ (- E)) * IZR z)); [|nra].
      rewrite <- Rmult_assoc, Hinv. lra.
    + apply Rlt_le_trans with (bpow E * (IZR (2 ^ (- E)) * (IZR z + 1))); [nra|].
      rewrite <- Rmult_assoc, Hinv. lra.
Qed.

(** A dimension [w] of an image whose larger dimension is [m], scaled by
    [1024 / m] as lines 150-151 do: the exact quotient rounded down, or
    one less. *)
Lemma scaled_dimension m :
  (1024 < m < 2 ^ 31)%Z ->
  exists scale,
    Float64.truediv 1024 m = Ok scale /\
    forall w, (0 <= w <= m)%Z ->
      exists w', Float64.int (Float64.mul_int w scale) = Ok w' /\
                 (0 <= w')%Z /\
                 (1024 * w / m - 1 <= w' <= 1024 * w / m)%Z.
Proof.
  intros Hm. unfold Float64.truediv.
  replace (m =? 0)%Z with false by (symmetry; apply Z.eqb_neq; lia).
  destruct (of_int_pos 1024) as (M1 & E1 & -> & HM1 & HE1 & Hv1); [lia|].
  destruct (of_int_pos m) as (M2 & E2 & -> & HM2 & HE2 & Hv2); [lia|].
  destruct (SFdiv_pos M1 E1 M2 E2 HM1 HM2) as (Ms & Es & -> & HMs & HEs & Hs); [lia|].
  cbv zeta in Hs. rewrite Hv1, Hv2 in Hs.
  eexists. split; [reflexivity|]. intros w Hw.
  destruct (Z.eq_dec w 0%Z) as [->|Hw0].
  { exists 0%Z. split; [reflexivity|]. rewrite Z.mul_0_r, Z.div_0_l by lia. lia. }
  rename Hw0 into Hwne.
  unfold Float64.mul_int.
  destruct (of_int_pos w) as (Mw & Ew & -> & HMw & HEw & Hvw); [lia|].
  destruct (SFmul_pos Mw Ew Ms Es HMw HMs) as (Mp & Ep & -> & HMp & Hp); [lia|].
  cbv zeta in Hp. rewrite Hvw in Hp.
  destruct (int_floor Mp Ep) as (w' & -> & Hfloor).
  exists w'. split; [reflexivity|].
  assert (0 <= w')%Z as Hnonneg.
  { assert (0 < IZR (Z.pos Mp) * bpow Ep)
      by (apply Rmult_lt_0_compat; [apply (IZR_lt 0); lia | apply bpow_pos]).
    assert (IZR (-1) < IZR w') as Hlt by (change (IZR (-1)) with (-1); lra).
    apply lt_IZR in Hlt. lia. }
  split; [exact Hnonneg|].
  set (Vs := IZR (Z.pos Ms) * bpow Es) in *.
  set (V := IZR (Z.pos Mp) * bpow Ep) in *.
  assert (bpow (-50) = / 1125899906842624) as Hb50 by (unfold bpow; simpl; lra).
  assert (bpow (-52) = / 4503599627370496) as Hb52 by (unfold bpow; simpl; lra).
  rewrite Hb50 in Hs. rewrite Hb52 in Hp.
  assert (0 < m)%Z as Hmpos by lia.
  pose proof (Z.mul_div_le (1024 * w) m Hmpos) as HKle.
  pose proof (Z.mul_succ_div_gt (1024 * w) m Hmpos) as HKgt.
  assert (0 <= 1024 * w / m <= 1024)%Z as HK.
  { split; [apply Z.div_pos; lia|]. apply Z.div_le_upper_bound; lia. }
  set (K := (1024 * w / m)%Z) in *.
  assert (IZR m < 2147483648) as Hm31 by (apply (IZR_lt m (2 ^ 31)); lia).
  assert (1024 < IZR m) as Hm10 by (apply (IZR_lt 1024 m); lia).
  assert (0 < IZR w <= IZR m) as Hwr by (split; [apply (IZR_lt 0) | apply IZR_le]; lia).
  assert (IZR K * IZR m <= 1024 * IZR w <= IZR K * IZR m + IZR m - 1) as HKr.
  { split.
    - rewrite <- !mult_IZR. apply IZR_le. lia.
    - replace (IZR K * IZR m + IZR m - 1) with (IZR (K * m + m - 1))
        by (rewrite minus_IZR, plus_IZR, mult_IZR; reflexivity).
      rewrite <- mult_IZR. apply IZR_le. lia. }
  assert (0 <= IZR K <= 1024) as HKb
    by (split; [apply (IZR_le 0) | apply (IZR_le K 1024)]; lia).
  (* m * V is within 1/256 of 1024 * w *)
  assert (0 < Vs) as HVs by nra.
  assert (1024 * IZR w - / 256 <= IZR m * V <= 1024 * IZR w + / 256) as Hclose.
  { assert (IZR w * (IZR m * Vs) <= IZR w * (1024 * (1 + / 1125899906842624))) as Hu
      by (apply Rmult_le_compat_l; lra).
    assert (IZR w * (1024 * (1 - / 1125899906842624)) <= IZR w * (IZR m * Vs)) as Hl
      by (apply Rmult_le_compat_l; lra).
    assert (IZR m * V <= IZR m * (IZR w * Vs * (1 + / 4503599627370496))) as Hu2
      by (apply Rmult_le_compat_l; lra).
    assert (IZR m * (IZR w * Vs * (1 - / 4503599627370496)) <= IZR m * V) as Hl2
      by (apply Rmult_le_compat_l; lra).
    set (a := IZR w * (IZR m * Vs)) in *.
    replace (IZR m * (IZR w * Vs * (1 + / 4503599627370496)))
      with (a * (1 + / 4503599627370496)) in Hu2 by (unfold a; ring).
    replace (IZR m * (IZR w * Vs * (1 - / 4503599627370496)))
      with (a * (1 - / 4503599627370496)) in Hl2 by (unfold a; ring).
    assert (0 <= a) by (unfold a; nra).
    split; lra. }
  split.
  - (* K - 1 <= w' *)
    assert (IZR (K * m - 1) < IZR ((w' + 1) * m)) as Hlt.
    { rewrite minus_IZR, !mult_IZR, plus_IZR. nra. }
    apply lt_IZR in Hlt. nia.
  - (* w' <= K *)
    assert (IZR (w' * m) < IZR ((K + 1) * m)) as Hlt.
    { rewrite !mult_IZR, plus_IZR. nra. }
    apply lt_IZR in Hlt. nia.
Qed.

End Rounding.

(** ** Geometry: bounding the size handed to the OCR model *)

(** C7: lines 147-152 of main.py (and 144-149 of price-project/modal_app.py)
    leave an image alone when its larger dimension is at most 1024;
    otherwise the image is resized to (int(w * scale), int(h * scale)) with
    scale = 1024 / max(w, h) in binary64.  For sizes below 2^31, each new
    dimension is the exact quotient 1024 * dim / max(w, h) rounded down, or
    one less: no dimension grows, the larger one becomes 1024 or 1023, and
    the aspect ratio moves by that rounding only: the cross product of the
    old and the new sizes is below twice the larger dimension. *)
Theorem constrain_max_dimension (D : Deps) (image : PIL.Image) :
  let w := PIL.width image in
  let h := PIL.height image in
  let m := Z.max w h in
  0 <= w < 2 ^ 31 -> 0 <= h < 2 ^ 31 ->
  (m <= 1024 ->
     Main.new_size (w, h) = Ok None /\
     Main._extract_text_body D image = ocr D image) /\
  (1024 < m ->
     exists scale w' h',
       Float64.truediv 1024 m = Ok scale /\
       Float64.int (Float64.mul_int w scale) = Ok w' /\
       Float64.int (Float64.mul_int h scale) = Ok h' /\
       Main.new_size (w, h) = Ok (Some (w', h')) /\
       Main._extract_text_body D image
         = (resized ← resize D image (w', h'); ocr D resized) /\
       1024 * w / m - 1 <= w' <= 1024 * w / m /\
       1024 * h / m - 1 <= h' <= 1024 * h / m /\
       0 <= w' <= w /\ 0 <= h' <= h /\
       1023 <= Z.max w' h' <= 1024 /\
       Z.abs (w' * h - h' * w) < 2 * m) /\
  Modal.new_size (w, h) = Main.new_size (w, h) /\
  Modal.extract_text D image = Main._extract_text_body D image.
Proof.
  intros w h m Hw Hh. split; [|split; [|split; reflexivity]].
  - intros Hm.
    assert (Main.new_size (w, h) = Ok None) as Hsize.
    { unfold Main.new_size. cbn [fst snd]. fold m.
      replace (m >? 1024) with false
        by (symmetry; rewrite Z.gtb_ltb; apply Z.ltb_ge; lia).
      reflexivity. }
    split; [exact Hsize|].
    unfold Main._extract_text_body, PIL.size. fold w h. rewrite Hsize. reflexivity.
  - intros Hm.
    destruct (scaled_dimension m) as (scale & Hscale & Hdim); [lia|].
    destruct (Hdim w) as (w' & Hw' & Hw0 & Hwb); [lia|].
    destruct (Hdim h) as (h' & Hh' & Hh0 & Hhb); [lia|].
    exists scale, w', h'.
    assert (Main.new_size (w, h) = Ok (Some (w', h'))) as Hsize.
    { unfold Main.new_size. cbn [fst snd]. fold m.
      replace (m >? 1024) with true
        by (symmetry; rewrite Z.gtb_ltb; apply Z.ltb_lt; lia).
      rewrite Hscale. cbn [mbind result_bind]. rewrite Hw'. cbn [mbind result_bind].
      rewrite Hh'. reflexivity. }
    assert (0 < m) as Hmpos by lia.
    pose proof (Z.mul_div_le (1024 * w) m Hmpos) as Hwle.
    pose proof (Z.mul_succ_div_gt (1024 * w) m Hmpos) as Hwgt.
    pose proof (Z.mul_div_le (1024 * h) m Hmpos) as Hhle.
    pose proof (Z.mul_succ_div_gt (1024 * h) m Hmpos) as Hhgt.
    set (Kw := 1024 * w / m) in *. set (Kh := 1024 * h / m) in *.
    assert (Kw <= w) as HKw by (apply Z.div_le_upper_bound; nia).
    assert (Kh <= h) as HKh by (apply Z.div_le_upper_bound; nia).
    repeat split; try assumption; try lia.
    + unfold Main._extract_text_body, PIL.size. fold w h. rewrite Hsize. reflexivity.
    + (* the larger dimension scales to 1024 exactly, before rounding *)
      assert (Kw = 1024 \/ Kh = 1024) as HK.
      { destruct (Z.max_spec w h) as [[_ Hmax]|[_ Hmax]]; fold m in Hmax.
        - right. unfold Kh. rewrite <- Hmax. apply Z.div_mul. lia.
        - left. unfold Kw. rewrite <- Hmax. apply Z.div_mul. lia. }
      lia.
    + assert (Kw <= 1024) by (apply Z.div_le_upper_bound; lia).
      assert (Kh <= 1024) by (apply Z.div_le_upper_bound; lia).
      lia.
    + apply Z.abs_lt. split; nia.
Qed.

(** A 3000 x 4000 crop is handed to the OCR model as 768 x 1024; a square
    of side 1568 as 1023 x 1023, since 1568 * (1024 / 1568) is just below
    1024 in binary64. *)
Lemma constrain_max_dimension_witness :
  Main.new_size (3000, 4000) = Ok (Some (768, 1024)) /\
  Main.new_size (1568, 1568) = Ok (Some (1023, 1023)) /\
  (exists scale w' h',
     Float64.truediv 1024 4000 = Ok scale /\
     Main.new_size (3000, 4000) = Ok (Some (w', h')) /\
     0 <= w' <= 3000 /\ 0 <= h' <= 4000 /\ 1023 <= Z.max w' h' <= 1024).
Proof.
  split; [reflexivity|]. split; [reflexivity|].
  destruct (constrain_max_dimension (double [] ocr_fails)
              (rgb 3000 4000 PIL.white)) as (_ & Hbig & _);
    [cbn; lia | cbn; lia |].
  destruct Hbig as (scale & w' & h' & Hs & _ & _ & Hsize & _ & _ & _ & Hw & Hh & Hmax & _);
    [cbn; lia|].
  exists scale, w', h'. repeat split; try assumption; lia.
Defined.

(** ** The detection loop *)

Section Loops.
Context {A B : Type}.
Implicit Types (body : A -> B -> result A) (acc : A) (l : list B).

Lemma for_each_app body acc l1 l2 :
  for_each body acc (l1 ++ l2) = acc' ← for_each body acc l1; for_each body acc' l2.
Proof.
  revert acc. induction l1 as [|x l1 IH]; intros acc; simpl; [reflexivity|].
  destruct (body acc x) as [acc'|e]; simpl; [apply IH | reflexivity].
Qed.

(** A body that appends at most one element and never raises. *)
Lemma for_each_collect {C : Type} (step : list C -> B -> result (list C))
    (pick : B -> option C) l :
  (forall tags x, step tags x = Ok (tags ++ option_list (pick x))) ->
  forall tags, for_each step tags l = Ok (tags ++ omap pick l).
Proof.
  intros Hstep. induction l as [|x l IH]; intros tags; simpl.
  - rewrite app_nil_r. reflexivity.
  - rewrite Hstep. simpl. rewrite IH.
    destruct (pick x); simpl; rewrite <- ?app_assoc, ?app_nil_r; reflexivity.
Qed.

End Loops.

(** The two nested [for] loops visit [all_boxes]. *)
Lemma for_each_results {A : Type} (body : A -> Box -> result A) acc results :
  for_each (fun acc res => for_each body acc (boxes res)) acc results
  = for_each body acc (all_boxes results).
Proof.
  revert acc. induction results as [|res results IH]; intros acc; [reflexivity|].
  unfold all_boxes. simpl. rewrite for_each_app.
  destruct (for_each body acc (boxes res)); simpl; [apply IH | reflexivity].
Qed.

(** A box that passed the test of line 247 is cropped without error. *)
Lemma crop_nondegenerate image x1 y1 x2 y2 :
  (x2 <=? x1) || (y2 <=? y1) = false ->
  PIL.crop image (x1, y1, x2, y2)
  = Ok {| PIL.mode := PIL.mode image; PIL.width := x2 - x1; PIL.height := y2 - y1;
          PIL.pixel := fun x y =>
            match PIL.getpixel image (x + x1) (y + y1) with
            | Some c => c
            | None => PIL.black
            end |}.
Proof.
  intros H. apply orb_false_elim in H as [Hx Hy].
  apply Z.leb_gt in Hx. apply Z.leb_gt in Hy. unfold PIL.crop.
  replace (x2 <? x1) with false by (symmetry; apply Z.ltb_ge; lia).
  replace (y2 <? y1) with false by (symmetry; apply Z.ltb_ge; lia).
  reflexivity.
Qed.

(** *** main.py *)

Section MainLoop.
Context (D : Deps).

Lemma main_process_box image box :
  Main.process_box D image box
  = Ok (if valid image box then Some (main_tag D image box) else None).
Proof.
  unfold Main.process_box, valid, main_tag, padded_crop, clamp, degenerate.
  destruct (xyxy box) as [[[x1 y1] x2] y2] eqn:Hbox.
  destruct ((Z.min (PIL.width image) x2 <=? Z.max 0 x1)
            || (Z.min (PIL.height image) y2 <=? Z.max 0 y1)) eqn:Hdeg;
    [reflexivity|].
  cbn [negb]. rewrite crop_nondegenerate by exact Hdeg. reflexivity.
Qed.

Lemma main_iteration image price_tags box :
  Main.iteration D image price_tags box
  = Ok (price_tags ++ option_list
          (if valid image box then Some (main_tag D image box) else None)).
Proof.
  unfold Main.iteration. rewrite main_process_box.
  destruct (valid image box); simpl; rewrite ?app_nil_r; reflexivity.
Qed.

(** What [detect_and_extract] returns once the argument is an RGB image
    and the detector has answered. *)
Lemma main_detect_and_extract arg image results :
  Main.as_rgb D arg = Ok image ->
  predict D image Main.DETECTION_CONF_THRESHOLD = Ok results ->
  Main.detect_and_extract D arg =
    Ok {| count := length (filter (fun b => valid image b = true) (all_boxes results));
          price_tags := main_tag D image <$>
            filter (fun b => valid image b = true) (all_boxes results) |}.
Proof.
  intros Harg Hpred. unfold Main.detect_and_extract.
  rewrite Harg. simpl. rewrite Hpred. simpl.
  rewrite for_each_results.
  rewrite (for_each_collect _
             (fun b => if valid image b then Some (main_tag D image b) else None))
    by (intros; apply main_iteration).
  simpl.
  assert (omap (fun b => if valid image b then Some (main_tag D image b) else None)
            (all_boxes results)
          = main_tag D image <$> filter (fun b => valid image b = true) (all_boxes results))
    as ->.
  { induction (all_boxes results) as [|b l IH]; [reflexivity|].
    simpl. rewrite filter_cons.
    destruct (decide (valid image b = true)) as [Hv|Hv].
    - rewrite Hv. simpl. f_equal. exact IH.
    - apply not_true_is_false in Hv. rewrite Hv. exact IH. }
  rewrite length_fmap. reflexivity.
Qed.

End MainLoop.

(** *** price-project/modal_app.py *)

Section ModalLoop.
Context (D : Deps).

Lemma modal_iteration image price_tags box :
  Modal.iteration D image price_tags box
  = Ok (price_tags ++ option_list (modal_pick D image box)).
Proof.
  unfold Modal.iteration, Modal.process_box, modal_pick, modal_tag.
  unfold valid, padded_crop, clamp, degenerate.
  destruct (xyxy box) as [[[x1 y1] x2] y2] eqn:Hbox.
  destruct ((Z.min (PIL.width image) x2 <=? Z.max 0 x1)
            || (Z.min (PIL.height image) y2 <=? Z.max 0 y1)) eqn:Hdeg;
    cbn [negb].
  - simpl. rewrite app_nil_r. reflexivity.
  - rewrite crop_nondegenerate by exact Hdeg.
    change Modal._pad_to_square with Main._pad_to_square.
    cbn [mbind result_bind].
    destruct (Modal.extract_text D _) as [t|e]; simpl.
    + reflexivity.
    + rewrite app_nil_r. reflexivity.
Qed.

Lemma modal_detect_and_extract arg image results :
  Modal.as_image D arg = Ok image ->
  predict D image Float64.f0_25 = Ok results ->
  Modal._detect_and_extract D arg =
    Ok {| count := length (omap (modal_pick D image) (all_boxes results));
          price_tags := omap (modal_pick D image) (all_boxes results) |}.
Proof.
  intros Harg Hpred. unfold Modal._detect_and_extract.
  rewrite Harg. simpl. rewrite Hpred. simpl.
  rewrite for_each_results.
  rewrite (for_each_collect _ (modal_pick D image))
    by (intros; apply modal_iteration).
  reflexivity.
Qed.

End ModalLoop.

(** *** jupyter/modal_app.py *)

Section JupyterLoop.
Context (D : Deps).

Lemma jupyter_iteration image price_tags box :
  Jupyter.iteration D image price_tags box
  = p ← jupyter_prepare D image box; Ok (price_tags ++ [jupyter_tag D box p]).
Proof.
  unfold Jupyter.iteration, jupyter_prepare, jupyter_tag.
  destruct (PIL.crop image (xyxy box)) as [cropped|e]; simpl; [|reflexivity].
  destruct (names D !! cls box) as [n|]; simpl; [|reflexivity].
  destruct (thumbnail D _ _) as [padded|e]; simpl; [|reflexivity].
  destruct (Jupyter.extract_text D padded); reflexivity.
Qed.

Lemma jupyter_loop image l : forall price_tags,
  for_each (Jupyter.iteration D image) price_tags l
  = tags ← jupyter_tags D image l; Ok (price_tags ++ tags).
Proof.
  induction l as [|box l IH]; intros price_tags; simpl.
  - rewrite app_nil_r. reflexivity.
  - rewrite jupyter_iteration.
    destruct (jupyter_prepare D image box) as [p|e]; simpl; [|reflexivity].
    rewrite IH. destruct (jupyter_tags D image l) as [tags|e]; simpl; [|reflexivity].
    rewrite <- app_assoc. reflexivity.
Qed.

Lemma jupyter_detect_and_extract image results :
  predict D image Float64.f0_1 = Ok results ->
  Jupyter._detect_and_extract D (ArgImage image) =
    tags ← jupyter_tags D image (all_boxes results);
    Ok {| count := length tags; price_tags := tags |}.
Proof.
  intros Hpred. unfold Jupyter._detect_and_extract. simpl.
  rewrite Hpred. simpl. rewrite for_each_results, jupyter_loop.
  destruct (jupyter_tags D image (all_boxes results)); reflexivity.
Qed.

(** When every detection gets through the steps outside the [try], the
    loop ends normally, and conversely. *)
Lemma jupyter_tags_ok image l :
  Forall (fun box => is_ok (jupyter_prepare D image box) = true) l <->
  is_ok (jupyter_tags D image l) = true.
Proof.
  induction l as [|box l IH]; simpl; [split; auto|].
  rewrite Forall_cons, IH.
  destruct (jupyter_prepare D image box) as [p|e]; simpl;
    [destruct (jupyter_tags D image l); simpl|]; intuition discriminate.
Qed.

(** One record per detection, in order. *)
Lemma jupyter_tags_each image l tags :
  jupyter_tags D image l = Ok tags ->
  Forall2 (fun box tag =>
             exists p, jupyter_prepare D image box = Ok p /\ tag = jupyter_tag D box p)
    l tags.
Proof.
  revert tags. induction l as [|box l IH]; intros tags; simpl.
  - intros [= <-]. constructor.
  - destruct (jupyter_prepare D image box) as [p|e] eqn:Hp; simpl; [|discriminate].
    destruct (jupyter_tags D image l) as [tags'|e]; simpl; [|discriminate].
    intros [= <-]. constructor.
    + exists p. split; [exact Hp | reflexivity].
    + apply IH. reflexivity.
Qed.

End JupyterLoop.

(** ** The orchestrators *)

Lemma filter_valid_length image l :
  Exists (fun box => valid image box = false) l ->
  (length (filter (fun b => valid image b = true) l) < length l)%nat.
Proof.
  induction 1 as [box l Hbox | box l _ IH].
  - rewrite filter_cons, decide_False by (rewrite Hbox; discriminate).
    pose proof (length_filter (fun b => valid image b = true) l). simpl. lia.
  - rewrite filter_cons. destruct (decide (valid image box = true)); simpl; [lia|].
    pose proof (length_filter (fun b => valid image b = true) l). lia.
Qed.

(** [valid] only looks at the raw box. *)
Lemma valid_raw image box box' :
  tolist (xyxy box) = tolist (xyxy box') -> valid image box = valid image box'.
Proof.
  unfold valid, tolist.
  destruct (xyxy box) as [[[a b] c] d], (xyxy box') as [[[a' b'] c'] d'].
  intros [= -> -> -> ->]. reflexivity.
Qed.

(** C5: when the argument decodes to an image and the detector returns no
    box, main.py's [detect_and_extract] returns count 0 and an empty list
    without raising, and so do the orchestrators of the two other
    deployments; and whatever any of the three returns, its count is the
    length of its record list. *)
Theorem no_detection_empty_result (D : Deps) :
  (forall arg image results,
     Main.as_rgb D arg = Ok image ->
     predict D image Main.DETECTION_CONF_THRESHOLD = Ok results ->
     all_boxes results = [] ->
     Main.detect_and_extract D arg = Ok {| count := 0; price_tags := [] |}) /\
  (forall arg image results,
     Modal.as_image D arg = Ok image ->
     predict D image Float64.f0_25 = Ok results ->
     all_boxes results = [] ->
     Modal._detect_and_extract D arg = Ok {| count := 0; price_tags := [] |}) /\
  (forall image results,
     predict D image Float64.f0_1 = Ok results ->
     all_boxes results = [] ->
     Jupyter._detect_and_extract D (ArgImage image)
       = Ok {| count := 0; price_tags := [] |}) /\
  (forall arg r, Main.detect_and_extract D arg = Ok r ->
     count r = length (price_tags r)) /\
  (forall arg r, Modal._detect_and_extract D arg = Ok r ->
     count r = length (price_tags r)) /\
  (forall arg r, Jupyter._detect_and_extract D arg = Ok r ->
     count r = length (price_tags r)).
Proof.
  split; [|split; [|split; [|repeat split]]].
  - intros arg image results Harg Hpred Hnone.
    rewrite (main_detect_and_extract D arg image results Harg Hpred), Hnone.
    reflexivity.
  - intros arg image results Harg Hpred Hnone.
    rewrite (modal_detect_and_extract D arg image results Harg Hpred), Hnone.
    reflexivity.
  - intros image results Hpred Hnone.
    rewrite (jupyter_detect_and_extract D image results Hpred), Hnone.
    reflexivity.
  - intros arg r. unfold Main.detect_and_extract.
    destruct (Main.as_rgb D arg) as [image|]; simpl; [|discriminate].
    destruct (predict D image _) as [results|]; simpl; [|discriminate].
    destruct (for_each _ _ results) as [tags|]; simpl; [|discriminate].
    intros [= <-]. reflexivity.
  - intros arg r. unfold Modal._detect_and_extract.
    destruct (Modal.as_image D arg) as [image|]; simpl; [|discriminate].
    destruct (predict D image _) as [results|]; simpl; [|discriminate].
    destruct (for_each _ _ results) as [tags|]; simpl; [|discriminate].
    intros [= <-]. reflexivity.
  - intros arg r. unfold Jupyter._detect_and_extract.
    destruct arg as [| |image|]; simpl; try discriminate.
    destruct (predict D image _) as [results|]; simpl; [|discriminate].
    destruct (for_each _ _ results) as [tags|]; simpl; [|discriminate].
    intros [= <-]. reflexivity.
Qed.

Lemma no_detection_empty_result_witness :
  Main.detect_and_extract (double [] ocr_fails) (ArgImage (rgb 10 10 PIL.white))
  = Ok {| count := 0; price_tags := [] |}.
Proof.
  apply (proj1 (no_detection_empty_result (double [] ocr_fails))
           (ArgImage (rgb 10 10 PIL.white)) (rgb 10 10 PIL.white)
           [ {| boxes := [] |} ]); reflexivity.
Defined.

Section Kept.
Context (D : Deps) (image : PIL.Image).

Lemma main_tags_bbox (l : list Box) :
  bbox <$> (main_tag D image <$> l) = raw <$> l.
Proof.
  induction l as [|b l IH]; [reflexivity|].
  rewrite !fmap_cons, IH. reflexivity.
Qed.

(** The records of price-project/modal_app.py come from surviving
    detections, in order, and carry their raw boxes. *)
Lemma modal_kept (l : list Box) :
  exists kept,
    sublist kept (filter (fun b => valid image b = true) l) /\
    bbox <$> omap (modal_pick D image) l = raw <$> kept.
Proof.
  induction l as [|b l (kept & Hsub & Hbox)]; [exists []; split; constructor|].
  change (omap (modal_pick D image) (b :: l))
    with (match modal_pick D image b with
          | Some t => t :: omap (modal_pick D image) l
          | None => omap (modal_pick D image) l
          end).
  rewrite filter_cons.
  destruct (modal_pick D image b) as [t|] eqn:Hp.
  - unfold modal_pick in Hp. destruct (valid image b) eqn:Hv; [|discriminate].
    destruct (Modal.extract_text D _) as [t'|e]; [|discriminate].
    injection Hp as <-. rewrite decide_True by reflexivity.
    exists (b :: kept). split; [apply sublist_skip, Hsub|].
    rewrite !fmap_cons, Hbox. reflexivity.
  - exists kept. split; [|exact Hbox].
    destruct (decide (valid image b = true)); [apply sublist_cons|]; exact Hsub.
Qed.

Lemma jupyter_tags_bbox (l : list Box) tags :
  jupyter_tags D image l = Ok tags -> bbox <$> tags = raw <$> l.
Proof.
  intros H. apply jupyter_tags_each in H.
  induction H as [|box tag l tags (p & _ & ->) _ IH]; [reflexivity|].
  rewrite !fmap_cons, IH. f_equal. unfold jupyter_tag.
  destruct (Jupyter.extract_text D p.2); reflexivity.
Qed.

End Kept.

Lemma from_survivors_skip image results tags :
  from_survivors image results tags ->
  (forall box, box ∈ all_boxes results -> valid image box = false ->
     raw box ∉ bbox <$> tags) /\
  (Exists (fun box => valid image box = false) (all_boxes results) ->
     (length tags < length (all_boxes results))%nat).
Proof.
  intros (kept & Hsub & Hbox). split.
  - intros box _ Hbad Hin. rewrite Hbox in Hin.
    apply list_elem_of_fmap in Hin as (box' & Heq & Hin').
    assert (box' ∈ filter (fun b => valid image b = true) (all_boxes results)) as Hf.
    { apply (sublist_subseteq _ _ Hsub), Hin'. }
    apply list_elem_of_filter in Hf as [Hok _].
    rewrite (valid_raw image box box' Heq) in Hbad. congruence.
  - intros Hex. apply filter_valid_length in Hex.
    apply sublist_length in Hsub.
    assert (length tags = length kept) as ->.
    { rewrite <- (length_fmap bbox), Hbox, length_fmap. reflexivity. }
    lia.
Qed.

(** C3, as the code has it: in main.py and in price-project/modal_app.py a
    detection whose clamped box is degenerate is skipped: the call returns
    normally, the records come in order from the surviving detections only,
    no record carries the box of a skipped detection, and the record list is
    strictly shorter than the detector's as soon as one detection is
    skipped. *)
Theorem degenerate_boxes_skipped (D : Deps) :
  (forall arg image results,
     Main.as_rgb D arg = Ok image ->
     predict D image Main.DETECTION_CONF_THRESHOLD = Ok results ->
     exists r,
       Main.detect_and_extract D arg = Ok r /\
       from_survivors image results (price_tags r) /\
       (forall box, box ∈ all_boxes results -> valid image box = false ->
          raw box ∉ bbox <$> price_tags r) /\
       (Exists (fun box => valid image box = false) (all_boxes results) ->
          (length (price_tags r) < length (all_boxes results))%nat)) /\
  (forall arg image results,
     Modal.as_image D arg = Ok image ->
     predict D image Float64.f0_25 = Ok results ->
     exists r,
       Modal._detect_and_extract D arg = Ok r /\
       from_survivors image results (price_tags r) /\
       (forall box, box ∈ all_boxes results -> valid image box = false ->
          raw box ∉ bbox <$> price_tags r) /\
       (Exists (fun box => valid image box = false) (all_boxes results) ->
          (length (price_tags r) < length (all_boxes results))%nat)).
Proof.
  split.
  - intros arg image results Harg Hpred.
    eexists. split; [apply (main_detect_and_extract D _ _ _ Harg Hpred)|].
    cbn [price_tags].
    assert (from_survivors image results
              (main_tag D image <$>
                 filter (fun b => valid image b = true) (all_boxes results))) as Hs.
    { eexists. split; [reflexivity | apply main_tags_bbox]. }
    split; [exact Hs | apply from_survivors_skip, Hs].
  - intros arg image results Harg Hpred.
    eexists. split; [apply (modal_detect_and_extract D _ _ _ Harg Hpred)|].
    cbn [price_tags].
    assert (from_survivors image results
              (omap (modal_pick D image) (all_boxes results))) as Hs
      by apply modal_kept.
    split; [exact Hs | apply from_survivors_skip, Hs].
Qed.

(** Two tags and a zero-area region: main.py counts two. *)
Lemma degenerate_boxes_skipped_witness :
  exists r,
    Main.detect_and_extract
      (double [detection (1, 1, 5, 5); detection (5, 5, 5, 5); detection (2, 2, 9, 6)]
         (ocr_reads "1.99"))
      (ArgImage (rgb 10 10 PIL.white)) = Ok r /\
    count r = 2%nat /\
    bbox <$> price_tags r = [[1; 1; 5; 5]; [2; 2; 9; 6]] /\
    (length (price_tags r) < 3)%nat.
Proof.
  destruct (proj1 (degenerate_boxes_skipped
              (double [detection (1, 1, 5, 5); detection (5, 5, 5, 5);
                       detection (2, 2, 9, 6)] (ocr_reads "1.99")))
              (ArgImage (rgb 10 10 PIL.white)) (rgb 10 10 PIL.white)
              [ {| boxes := [detection (1, 1, 5, 5); detection (5, 5, 5, 5);
                             detection (2, 2, 9, 6)] |} ]
              eq_refl eq_refl) as (r & Hr & _ & _ & Hlt).
  exists r. split; [exact Hr|].
  assert (Ok r = Ok {| count := 2;
            price_tags := main_tag (double [detection (1, 1, 5, 5);
                                            detection (5, 5, 5, 5);
                                            detection (2, 2, 9, 6)]
                                      (ocr_reads "1.99")) (rgb 10 10 PIL.white)
                            <$> [detection (1, 1, 5, 5); detection (2, 2, 9, 6)] |})
    as [= ->] by (rewrite <- Hr; reflexivity).
  split; [reflexivity|]. split; [reflexivity|].
  apply Hlt. apply Exists_cons_tl, Exists_cons_hd. reflexivity.
Defined.

(** C3 as stated fails on the jupyter deployment: a zero-area detection,
    degenerate after clamping, still gets its record, whether the OCR model
    answers or raises on the empty crop, so the record list is as long as
    the detector's. *)
Lemma jupyter_keeps_degenerate_box :
  degenerate (clamp (rgb 10 10 PIL.white) (5, 5, 5, 5)) = true /\
  Jupyter._detect_and_extract (double [detection (5, 5, 5, 5)] (ocr_reads "1.99"))
    (ArgImage (rgb 10 10 PIL.white))
  = Ok {| count := 1;
          price_tags := [ {| bbox := [5; 5; 5; 5]; text := "1.99";
                             confidence := Float64.f0_25; class := "price_tag";
                             error := None |} ] |} /\
  Jupyter._detect_and_extract (double [detection (5, 5, 5, 5)] ocr_fails)
    (ArgImage (rgb 10 10 PIL.white))
  = Ok {| count := 1;
          price_tags := [ {| bbox := [5; 5; 5; 5]; text := "";
                             confidence := Float64.f0_25; class := "price_tag";
                             error := Some "CUDA out of memory" |} ] |}.
Proof. repeat split. Qed.

(** A box whose right edge is left of its left edge makes the crop raise,
    and the jupyter deployment lets the exception out of the call. *)
Lemma jupyter_inverted_box_raises :
  Jupyter._detect_and_extract (double [detection (7, 2, 3, 8)] (ocr_reads ""))
    (ArgImage (rgb 10 10 PIL.white))
  = Raise (Exception "ValueError" "Coordinate 'right' is less than 'left'").
Proof. reflexivity. Qed.

(** C4, as the code has it: the box a record stores is the raw box of its
    detection, as the detector returned it (cast to int), in the three
    deployments; it is the clamped box exactly when the raw box already
    lies within the image. *)
Theorem record_bbox_is_raw_box (D : Deps) :
  (forall arg image results r,
     Main.as_rgb D arg = Ok image ->
     predict D image Main.DETECTION_CONF_THRESHOLD = Ok results ->
     Main.detect_and_extract D arg = Ok r ->
     exists kept, sublist kept (all_boxes results) /\
                  bbox <$> price_tags r = raw <$> kept) /\
  (forall arg image results r,
     Modal.as_image D arg = Ok image ->
     predict D image Float64.f0_25 = Ok results ->
     Modal._detect_and_extract D arg = Ok r ->
     exists kept, sublist kept (all_boxes results) /\
                  bbox <$> price_tags r = raw <$> kept) /\
  (forall image results r,
     predict D image Float64.f0_1 = Ok results ->
     Jupyter._detect_and_extract D (ArgImage image) = Ok r ->
     bbox <$> price_tags r = raw <$> all_boxes results) /\
  (forall image x1 y1 x2 y2,
     clamp image (x1, y1, x2, y2) = (x1, y1, x2, y2) <->
     0 <= x1 /\ 0 <= y1 /\ x2 <= PIL.width image /\ y2 <= PIL.height image).
Proof.
  split; [|split; [|split]].
  - intros arg image results r Harg Hpred.
    rewrite (main_detect_and_extract D _ _ _ Harg Hpred). intros [= <-].
    exists (filter (fun b => valid image b = true) (all_boxes results)).
    split; [apply sublist_filter; tc_solve | apply main_tags_bbox].
  - intros arg image results r Harg Hpred.
    rewrite (modal_detect_and_extract D _ _ _ Harg Hpred). intros [= <-].
    destruct (modal_kept D image (all_boxes results)) as (kept & Hsub & Hbox).
    exists kept. split; [|exact Hbox].
    etrans; [exact Hsub | apply sublist_filter; tc_solve].
  - intros image results r Hpred.
    rewrite (jupyter_detect_and_extract D image results Hpred).
    destruct (jupyter_tags D image (all_boxes results)) as [tags|e] eqn:Htags;
      simpl; [|discriminate].
    intros [= <-]. apply (jupyter_tags_bbox D image _ _ Htags).
  - intros image x1 y1 x2 y2. unfold clamp. split.
    + intros [=]. lia.
    + intros (? & ? & ? & ?). rewrite !Z.max_r, !Z.min_r by lia. reflexivity.
Qed.

Lemma record_bbox_is_raw_box_witness :
  exists kept,
    sublist kept [detection (-5, 0, 20, 10)] /\
    bbox <$> [ {| bbox := [-5; 0; 20; 10]; text := "1.99";
                  confidence := Float64.f0_25; class := "price_tag";
                  error := None |} ] = raw <$> kept.
Proof.
  apply (proj1 (record_bbox_is_raw_box
                  (double [detection (-5, 0, 20, 10)] (ocr_reads "1.99")))
           (ArgImage (rgb 10 10 PIL.white)) (rgb 10 10 PIL.white)
           [ {| boxes := [detection (-5, 0, 20, 10)] |} ]
           {| count := 1;
              price_tags := [ {| bbox := [-5; 0; 20; 10]; text := "1.99";
                                 confidence := Float64.f0_25; class := "price_tag";
                                 error := None |} ] |});
    reflexivity.
Defined.

(** C4 as stated fails: a detection reaching over the border of a 10 x 10
    image is clamped to the image for the crop, but its record keeps the
    raw box. *)
Lemma main_record_keeps_raw_box :
  Main.detect_and_extract (double [detection (-5, 0, 20, 10)] (ocr_reads "1.99"))
    (ArgImage (rgb 10 10 PIL.white))
  = Ok {| count := 1;
          price_tags := [ {| bbox := [-5; 0; 20; 10]; text := "1.99";
                             confidence := Float64.f0_25; class := "price_tag";
                             error := None |} ] |} /\
  tolist (clamp (rgb 10 10 PIL.white) (-5, 0, 20, 10)) = [0; 0; 10; 10] /\
  [-5; 0; 20; 10] <> tolist (clamp (rgb 10 10 PIL.white) (-5, 0, 20, 10)).
Proof.
  split; [reflexivity|]. split; [reflexivity|]. discriminate.
Qed.

(** C1, as the code has it.  In the jupyter deployment a failed extraction
    leaves a record with empty text and the error message, in place and
    counted, and the call returns normally whenever the steps outside the
    [try] do.  In main.py the extraction never raises: every surviving
    detection has its record, in place and counted, and the record of one
    whose OCR failed has the empty text. *)
Theorem extraction_failure_record (D : Deps) :
  (forall image results,
     predict D image Float64.f0_1 = Ok results ->
     Forall (fun box => is_ok (jupyter_prepare D image box) = true)
       (all_boxes results) ->
     exists r,
       Jupyter._detect_and_extract D (ArgImage image) = Ok r /\
       count r = length (all_boxes results) /\
       Forall2 (fun box tag =>
                  bbox tag = raw box /\
                  exists p, jupyter_prepare D image box = Ok p /\
                    match Jupyter.extract_text D p.2 with
                    | Ok t => text tag = t /\ error tag = None
                    | Raise e => text tag = "" /\ error tag = Some (str e)
                    end)
         (all_boxes results) (price_tags r)) /\
  (forall arg image results,
     Main.as_rgb D arg = Ok image ->
     predict D image Main.DETECTION_CONF_THRESHOLD = Ok results ->
     exists r,
       Main.detect_and_extract D arg = Ok r /\
       count r = length (filter (fun b => valid image b = true) (all_boxes results)) /\
       Forall2 (fun box tag =>
                  bbox tag = raw box /\
                  match Main._extract_text_body D (padded_crop image box) with
                  | Ok t => text tag = t
                  | Raise e => text tag = ""
                  end)
         (filter (fun b => valid image b = true) (all_boxes results))
         (price_tags r)).
Proof.
  split.
  - intros image results Hpred Hprep.
    rewrite (jupyter_detect_and_extract D image results Hpred).
    apply jupyter_tags_ok in Hprep.
    destruct (jupyter_tags D image (all_boxes results)) as [tags|e] eqn:Htags;
      [|discriminate].
    eexists. split; [reflexivity|]. cbn [count price_tags].
    apply jupyter_tags_each in Htags. split.
    + symmetry. apply (Forall2_length _ _ _ Htags).
    + eapply Forall2_impl; [exact Htags|].
      intros box tag (p & Hp & ->). unfold jupyter_tag.
      destruct (Jupyter.extract_text D p.2) as [t|e] eqn:Ht.
      * split; [reflexivity|]. exists p. rewrite Ht. auto.
      * split; [reflexivity|]. exists p. rewrite Ht. auto.
  - intros arg image results Harg Hpred.
    eexists. split; [apply (main_detect_and_extract D _ _ _ Harg Hpred)|].
    cbn [count price_tags]. split; [reflexivity|].
    apply Forall2_fmap_r, Forall_Forall2_diag, Forall_forall.
    intros box _. unfold compose, main_tag, Main._extract_text.
    cbn [bbox text].
    destruct (Main._extract_text_body D (padded_crop image box)); auto.
Qed.

(** Two detections, the OCR model down: jupyter reports both with their
    error. *)
Lemma extraction_failure_record_witness :
  exists r,
    Jupyter._detect_and_extract
      (double [detection (1, 1, 5, 5); detection (2, 2, 9, 6)] ocr_fails)
      (ArgImage (rgb 10 10 PIL.white)) = Ok r /\
    count r = 2%nat /\
    Forall (fun tag => text tag = "" /\ error tag = Some "CUDA out of memory")
      (price_tags r).
Proof.
  destruct (proj1 (extraction_failure_record
              (double [detection (1, 1, 5, 5); detection (2, 2, 9, 6)] ocr_fails))
              (rgb 10 10 PIL.white)
              [ {| boxes := [detection (1, 1, 5, 5); detection (2, 2, 9, 6)] |} ]
              eq_refl) as (r & Hr & Hcount & Htags).
  { repeat constructor. }
  exists r. split; [exact Hr|]. split; [exact Hcount|].
  clear Hr Hcount. revert Htags. generalize (price_tags r).
  intros tags H. apply Forall2_Forall_r with (1 := H).
  apply Forall_forall. intros box _ tag (_ & p & _ & Hp). exact Hp.
Defined.

(** C1 as stated fails on main.py: the OCR model raises on the one
    detection of the image, [_extract_text] turns that into the empty
    text, and the record has no error detail. *)
Lemma main_failed_extraction_has_no_error :
  Main._extract_text_body (double [detection (1, 1, 5, 5)] ocr_fails)
    (padded_crop (rgb 10 10 PIL.white) (detection (1, 1, 5, 5)))
  = Raise (Exception "RuntimeError" "CUDA out of memory") /\
  Main.detect_and_extract (double [detection (1, 1, 5, 5)] ocr_fails)
    (ArgImage (rgb 10 10 PIL.white))
  = Ok {| count := 1;
          price_tags := [ {| bbox := [1; 1; 5; 5]; text := "";
                             confidence := Float64.f0_25; class := "price_tag";
                             error := None |} ] |}.
Proof. split; reflexivity. Qed.

(** In price-project/modal_app.py the extraction is under the [try] of the
    iteration: the same failure leaves no record at all. *)
Lemma modal_failed_extraction_leaves_no_record :
  Modal._detect_and_extract (double [detection (1, 1, 5, 5)] ocr_fails)
    (ArgImage (rgb 10 10 PIL.white))
  = Ok {| count := 0; price_tags := [] |}.
Proof. reflexivity. Qed.

(** ** Jobs *)

Lemma setitem_transition job_id outcome st :
  one_terminal_transition job_id outcome st
    (setitem job_id
       match outcome with
       | Ok result => Completed result
       | Raise e => Failed (str e)
       end st).
Proof.
  exists (match outcome with
          | Ok result => Completed result
          | Raise e => Failed (str e)
          end).
  split; [destruct outcome; reflexivity|]. split; [reflexivity|].
  split; [reflexivity|]. split; [apply lookup_insert_eq|]. split; [|reflexivity].
  intros k Hk. apply lookup_insert_ne. congruence.
Qed.

(** The shape shared by the three runners: the outcome of the [try] picks
    the entry, one assignment writes it. *)
Lemma runner_transition job_id outcome st st' :
  st' = match outcome with
        | Ok result => setitem job_id (Completed result) st
        | Raise e => setitem job_id (Failed (str e)) st
        end ->
  one_terminal_transition job_id outcome st st' /\
  job_statuses st' !! job_id <> Some Submitted.
Proof.
  intros ->.
  assert (one_terminal_transition job_id outcome st
            match outcome with
            | Ok result => setitem job_id (Completed result) st
            | Raise e => setitem job_id (Failed (str e)) st
            end) as Ht.
  { pose proof (setitem_transition job_id outcome st) as H.
    destruct outcome; exact H. }
  split; [exact Ht|].
  destruct Ht as (j & Hterm & _ & _ & Hj & _). rewrite Hj.
  intros [= ->]. discriminate.
Qed.

Lemma transition_failed job_id e st st' :
  one_terminal_transition job_id (Raise e) st st' ->
  job_statuses st' !! job_id = Some (Failed (str e)).
Proof. intros (j & _ & -> & _ & Hj & _). exact Hj. Qed.

(** C2: a run of [process_url_job] or of [process_file_job] on a submitted
    job assigns the dictionary exactly once, for that job, a terminal
    entry: completed with the result when fetching, decoding and the
    orchestrator all return, failed with the message of the first
    exception otherwise; the job is never left submitted.  The runner of
    the jupyter deployment does the same. *)
Theorem run_job_one_terminal_transition (D : Deps) (job_id : string) (st : Store) :
  job_statuses st !! job_id = Some Submitted ->
  (forall url,
     one_terminal_transition job_id (Modal.url_job_body D url) st
       (Modal.process_url_job D job_id url st) /\
     job_statuses (Modal.process_url_job D job_id url st) !! job_id
       <> Some Submitted /\
     (forall e, requests_get D url = Raise e ->
        job_statuses (Modal.process_url_job D job_id url st) !! job_id
          = Some (Failed (str e)))) /\
  (forall file_data,
     one_terminal_transition job_id (Modal.file_job_body D file_data) st
       (Modal.process_file_job D job_id file_data st) /\
     job_statuses (Modal.process_file_job D job_id file_data st) !! job_id
       <> Some Submitted /\
     (forall e, Image_open D file_data = Raise e ->
        job_statuses (Modal.process_file_job D job_id file_data st) !! job_id
          = Some (Failed (str e)))) /\
  (forall url,
     one_terminal_transition job_id (Jupyter.url_job_body D url) st
       (Jupyter.process_url_job D job_id url st) /\
     job_statuses (Jupyter.process_url_job D job_id url st) !! job_id
       <> Some Submitted).
Proof.
  intros _. split; [|split].
  - intros url.
    destruct (runner_transition job_id (Modal.url_job_body D url) st
                (Modal.process_url_job D job_id url st) eq_refl) as [Ht Hne].
    split; [exact Ht|]. split; [exact Hne|].
    intros e He. apply (transition_failed job_id e st).
    replace (Raise e) with (Modal.url_job_body D url); [exact Ht|].
    unfold Modal.url_job_body. rewrite He. reflexivity.
  - intros file_data.
    destruct (runner_transition job_id (Modal.file_job_body D file_data) st
                (Modal.process_file_job D job_id file_data st) eq_refl) as [Ht Hne].
    split; [exact Ht|]. split; [exact Hne|].
    intros e He. apply (transition_failed job_id e st).
    replace (Raise e) with (Modal.file_job_body D file_data); [exact Ht|].
    unfold Modal.file_job_body. rewrite He. reflexivity.
  - intros url.
    apply (runner_transition job_id (Jupyter.url_job_body D url) st
             (Jupyter.process_url_job D job_id url st) eq_refl).
Qed.

Lemma run_job_one_terminal_transition_witness :
  job_statuses
    (Modal.process_url_job (double [] ocr_fails) "job_0123abcd"
       (JStr "http://shop/tag.jpg") one_submitted) !! "job_0123abcd"
  = Some (Failed "Max retries exceeded") /\
  one_terminal_transition "job_0123abcd"
    (Ok {| count := 1;
           price_tags := [ {| bbox := [1; 1; 5; 5]; text := "1.99";
                              confidence := Float64.f0_25; class := "price_tag";
                              error := None |} ] |})
    one_submitted
    (Modal.process_url_job
       (online (double [detection (1, 1, 5, 5)] (ocr_reads "1.99")))
       "job_0123abcd" (JStr "http://shop/tag.jpg") one_submitted).
Proof.
  destruct (run_job_one_terminal_transition (double [] ocr_fails)
              "job_0123abcd" one_submitted eq_refl) as [Hdown _].
  destruct (Hdown (JStr "http://shop/tag.jpg")) as (_ & _ & Hfetch).
  destruct (run_job_one_terminal_transition
              (online (double [detection (1, 1, 5, 5)] (ocr_reads "1.99")))
              "job_0123abcd" one_submitted eq_refl) as [Hup _].
  destruct (Hup (JStr "http://shop/tag.jpg")) as (Hdone & _ & _).
  split.
  - apply (Hfetch (Exception "ConnectionError" "Max retries exceeded")).
    reflexivity.
  - exact Hdone.
Defined.

(** C9, as the code has it: a submission with a usable URL always succeeds
    and leaves the job submitted with no result, whatever the dictionary
    held for that identifier before; the other entries stay, and one run is
    spawned.  Without a usable URL the submission is refused and the store
    is untouched.  The two deployments agree, and the submission of an
    uploaded file writes the same entry in the same way. *)
Theorem submit_job_url_creates (request : gmap string json) (hex : string)
    (st : Store) :
  let url := default JNull (request !! "url") in
  (truthy url = true ->
     (Modal.submit_job_url request hex st).1
       = Ok {| job_id := new_job_id hex; submission_status := "submitted" |} /\
     job_statuses (Modal.submit_job_url request hex st).2 !! new_job_id hex
       = Some Submitted /\
     (forall k, k <> new_job_id hex ->
        job_statuses (Modal.submit_job_url request hex st).2 !! k
          = job_statuses st !! k) /\
     assignments (Modal.submit_job_url request hex st).2
       = assignments st ++ [(new_job_id hex, Submitted)] /\
     spawned (Modal.submit_job_url request hex st).2
       = spawned st ++ [process_url_job_spawn (new_job_id hex) url]) /\
  (truthy url = false ->
     Modal.submit_job_url request hex st
       = (Raise (Exception "HTTPException" "URL is required"), st)) /\
  Jupyter.submit_job_url request hex st = Modal.submit_job_url request hex st /\
  (forall contents,
     (Modal.submit_job (Ok contents) hex st).1
       = Ok {| job_id := new_job_id hex; submission_status := "submitted" |} /\
     job_statuses (Modal.submit_job (Ok contents) hex st).2 !! new_job_id hex
       = Some Submitted).
Proof.
  intros url. split; [|split; [|split; [reflexivity|]]];
    [| |intros contents; split; [reflexivity | apply lookup_insert_eq]].
  - intros Hurl. unfold Modal.submit_job_url. fold url. rewrite Hurl. simpl.
    split; [reflexivity|]. split; [apply lookup_insert_eq|].
    split; [|split; reflexivity].
    intros k Hk. apply lookup_insert_ne. congruence.
  - intros Hurl. unfold Modal.submit_job_url. fold url. rewrite Hurl. reflexivity.
Qed.

Lemma submit_job_url_creates_witness :
  job_statuses
    (Modal.submit_job_url {[ "url" := JStr "http://shop/tag.jpg" ]}
       "89abcdef0123456789abcdef01234567" one_completed).2 !! "job_89abcdef"
  = Some Submitted.
Proof.
  apply (proj1 (submit_job_url_creates {[ "url" := JStr "http://shop/tag.jpg" ]}
                  "89abcdef0123456789abcdef01234567" one_completed)).
  reflexivity.
Defined.

(** C9 as stated fails: the identifier drawn is that of a completed job;
    the submission is accepted all the same and the completed entry is
    replaced by a submitted one. *)
Lemma submit_job_url_overwrites :
  job_statuses one_completed !! "job_0123abcd"
    = Some (Completed {| count := 0; price_tags := [] |}) /\
  (Modal.submit_job_url {[ "url" := JStr "http://shop/tag.jpg" ]}
     "0123abcd0123abcd0123abcd0123abcd" one_completed).1
    = Ok {| job_id := "job_0123abcd"; submission_status := "submitted" |} /\
  job_statuses
    (Modal.submit_job_url {[ "url" := JStr "http://shop/tag.jpg" ]}
       "0123abcd0123abcd0123abcd0123abcd" one_completed).2 !! "job_0123abcd"
    = Some Submitted /\
  job_statuses
    (Jupyter.submit_job_url {[ "url" := JStr "http://shop/tag.jpg" ]}
       "0123abcd0123abcd0123abcd0123abcd" one_completed).2 !! "job_0123abcd"
    = Some Submitted.
Proof. repeat split. Qed.

(** ** Jobs: reading the dictionary, running spawned calls *)

Lemma process_url_job_statuses (D : Deps) job_id url st :
  job_statuses (Modal.process_url_job D job_id url st)
  = <[job_id := entry (Modal.url_job_body D url)]> (job_statuses st).
Proof.
  unfold Modal.process_url_job, entry.
  destruct (Modal.url_job_body D url); reflexivity.
Qed.

Lemma process_file_job_statuses (D : Deps) job_id file_data st :
  job_statuses (Modal.process_file_job D job_id file_data st)
  = <[job_id := entry (Modal.file_job_body D file_data)]> (job_statuses st).
Proof.
  unfold Modal.process_file_job, entry.
  destruct (Modal.file_job_body D file_data); reflexivity.
Qed.

Lemma jupyter_process_url_job_statuses (D : Deps) job_id url st :
  job_statuses (Jupyter.process_url_job D job_id url st)
  = <[job_id := entry (Jupyter.url_job_body D url)]> (job_statuses st).
Proof.
  unfold Jupyter.process_url_job, entry.
  destruct (Jupyter.url_job_body D url); reflexivity.
Qed.

Lemma entry_terminal outcome : terminal (entry outcome) = true.
Proof. destruct outcome; reflexivity. Qed.

Lemma job_status_lookup job_id st j :
  job_statuses st !! job_id = Some j -> Modal.job_status job_id st = Ok j.
Proof. intros H. unfold Modal.job_status. rewrite H. reflexivity. Qed.

(** X1: the life of a job as [job_status] shows it.  Right after a
    submission with a usable URL the job reads as submitted; once the
    spawned call has run it reads as completed with the result of the
    pipeline, or as failed with the message of the first exception, and
    never again as submitted; the answers for all other identifiers are
    those from before the submission.  An identifier that is not in the
    dictionary is answered with the exception "Job <id> not found". *)
Theorem job_status_follows_the_job (D : Deps) (request : gmap string json)
    (hex : string) (st : Store) :
  let url := default JNull (request !! "url") in
  let job_id := new_job_id hex in
  let st1 := (Modal.submit_job_url request hex st).2 in
  let st2 := Modal.process_url_job D job_id url st1 in
  truthy url = true ->
  spawned st1 = spawned st ++ [process_url_job_spawn job_id url] /\
  Modal.job_status job_id st1 = Ok Submitted /\
  Modal.job_status job_id st2 = Ok (entry (Modal.url_job_body D url)) /\
  terminal (entry (Modal.url_job_body D url)) = true /\
  (forall k, k <> job_id ->
     Modal.job_status k st1 = Modal.job_status k st /\
     Modal.job_status k st2 = Modal.job_status k st) /\
  (forall k, job_statuses st2 !! k = None ->
     Modal.job_status k st2
       = Raise (Exception "HTTPException" ("Job " +:+ k +:+ " not found"))) /\
  Jupyter.job_status job_id
    (Jupyter.process_url_job D job_id url (Jupyter.submit_job_url request hex st).2)
    = Ok (entry (Jupyter.url_job_body D url)).
Proof.
  intros url job_id st1 st2 Hurl.
  assert (st1 = spawn (process_url_job_spawn job_id url) (setitem job_id Submitted st))
    as Hst1.
  { unfold st1, Modal.submit_job_url. fold url. rewrite Hurl. reflexivity. }
  assert (job_statuses st1 = <[job_id := Submitted]> (job_statuses st)) as Hm1
    by (rewrite Hst1; reflexivity).
  assert (job_statuses st2
          = <[job_id := entry (Modal.url_job_body D url)]> (job_statuses st1)) as Hm2
    by apply process_url_job_statuses.
  split; [rewrite Hst1; reflexivity|].
  split; [apply job_status_lookup; rewrite Hm1; apply lookup_insert_eq|].
  split; [apply job_status_lookup; rewrite Hm2; apply lookup_insert_eq|].
  split; [apply entry_terminal|].
  split; [|split].
  - intros k Hk. unfold Modal.job_status. rewrite Hm2, Hm1.
    rewrite !lookup_insert_ne by congruence. split; reflexivity.
  - intros k Hk. unfold Modal.job_status. rewrite Hk. reflexivity.
  - unfold Jupyter.job_status. rewrite jupyter_process_url_job_statuses.
    rewrite lookup_insert_eq. reflexivity.
Qed.

Lemma job_status_follows_the_job_witness :
  Modal.job_status "job_89abcdef"
    (Modal.submit_job_url {[ "url" := JStr "http://shop/tag.jpg" ]}
       "89abcdef0123456789abcdef01234567" empty_store).2
  = Ok Submitted /\
  Modal.job_status "job_89abcdef"
    (Modal.process_url_job (double [] ocr_fails) "job_89abcdef"
       (JStr "http://shop/tag.jpg")
       (Modal.submit_job_url {[ "url" := JStr "http://shop/tag.jpg" ]}
          "89abcdef0123456789abcdef01234567" empty_store).2)
  = Ok (Failed "Max retries exceeded").
Proof.
  assert (truthy (default JNull
            (({[ "url" := JStr "http://shop/tag.jpg" ]} : gmap string json) !! "url"))
          = true) as Hurl by reflexivity.
  destruct (job_status_follows_the_job (double [] ocr_fails)
              {[ "url" := JStr "http://shop/tag.jpg" ]}
              "89abcdef0123456789abcdef01234567" empty_store Hurl)
    as (_ & Hsub & Hrun & _).
  split; [exact Hsub | exact Hrun].
Defined.

Lemma run_statuses (D : Deps) c :
  exists j, terminal j = true /\
    forall st, job_statuses (run D c st) = <[spawn_job_id c := j]> (job_statuses st).
Proof.
  destruct c as [job_id url|job_id file_data]; simpl.
  - exists (entry (Modal.url_job_body D url)). split; [apply entry_terminal|].
    intros st'. apply process_url_job_statuses.
  - exists (entry (Modal.file_job_body D file_data)). split; [apply entry_terminal|].
    intros st'. apply process_file_job_statuses.
Qed.

Lemma run_spawned (D : Deps) c st : spawned (run D c st) = spawned st.
Proof.
  destruct c as [job_id url|job_id file_data]; simpl.
  - unfold Modal.process_url_job. destruct (Modal.url_job_body D url); reflexivity.
  - unfold Modal.process_file_job.
    destruct (Modal.file_job_body D file_data); reflexivity.
Qed.

Lemma run_assignments (D : Deps) c st :
  exists j, assignments (run D c st) = assignments st ++ [(spawn_job_id c, j)].
Proof.
  destruct c as [job_id url|job_id file_data]; simpl.
  - unfold Modal.process_url_job.
    destruct (Modal.url_job_body D url); eexists; reflexivity.
  - unfold Modal.process_file_job.
    destruct (Modal.file_job_body D file_data); eexists; reflexivity.
Qed.

(** X2: a run never looks at the dictionary.  Whether the job is absent,
    submitted or already terminal, the run writes the terminal entry its
    own outcome picks: a job that was never submitted gets an entry, and a
    finished one is replaced.  Running the same call a second time leaves
    the dictionary as the first run left it, with one more assignment
    made; no run spawns anything. *)
Theorem run_ignores_previous_entry (D : Deps) (c : Spawn) :
  exists j, terminal j = true /\
    forall st,
      job_statuses (run D c st) !! spawn_job_id c = Some j /\
      (forall k, k <> spawn_job_id c ->
         job_statuses (run D c st) !! k = job_statuses st !! k) /\
      job_statuses (run D c (run D c st)) = job_statuses (run D c st) /\
      assignments (run D c (run D c st))
        = assignments st ++ [(spawn_job_id c, j); (spawn_job_id c, j)] /\
      spawned (run D c st) = spawned st.
Proof.
  destruct (run_statuses D c) as (j & Hterm & Hj).
  exists j. split; [exact Hterm|]. intros st.
  split; [rewrite Hj; apply lookup_insert_eq|].
  split; [intros k Hk; rewrite Hj; apply lookup_insert_ne; congruence|].
  split; [rewrite !Hj; apply insert_insert_eq|].
  split; [|apply run_spawned].
  assert (forall st, assignments (run D c st) = assignments st ++ [(spawn_job_id c, j)])
    as Ha.
  { intros st'. destruct (run_assignments D c st') as (j' & Hj').
    rewrite Hj'. do 3 f_equal.
    pose proof (Hj st') as Hm.
    assert (job_statuses (run D c st') !! spawn_job_id c = Some j') as Hl.
    { destruct c as [job_id url|job_id file_data]; simpl in *.
      - unfold Modal.process_url_job in *.
        destruct (Modal.url_job_body D url); simpl in *;
          apply (inj (app (assignments st'))) in Hj'; injection Hj' as <-;
          apply lookup_insert_eq.
      - unfold Modal.process_file_job in *.
        destruct (Modal.file_job_body D file_data); simpl in *;
          apply (inj (app (assignments st'))) in Hj'; injection Hj' as <-;
          apply lookup_insert_eq. }
    rewrite Hm, lookup_insert_eq in Hl. congruence. }
  rewrite !Ha, <- app_assoc. reflexivity.
Qed.

(** A store in which every job that reads as submitted has a spawned
    call. *)
Lemma reachable_covered (D : Deps) st :
  reachable D st ->
  forall k, job_statuses st !! k = Some Submitted ->
    exists c, c ∈ spawned st /\ spawn_job_id c = k.
Proof.
  induction 1 as [|request hex st _ IH|contents hex st _ IH|c st _ IH Hc];
    intros k Hk.
  - simpl in Hk. rewrite lookup_empty in Hk. discriminate.
  - unfold Modal.submit_job_url in *.
    destruct (negb (truthy (default JNull (request !! "url")))); simpl in *;
      [apply IH, Hk|].
    destruct (decide (k = new_job_id hex)) as [->|Hne].
    + eexists. split; [apply elem_of_app; right; apply list_elem_of_singleton;
                        reflexivity | reflexivity].
    + rewrite lookup_insert_ne in Hk by congruence.
      destruct (IH k Hk) as (c & Hin & Hid). exists c.
      split; [apply elem_of_app; left; exact Hin | exact Hid].
  - destruct contents as [contents|e]; simpl in *; [|apply IH, Hk].
    destruct (decide (k = new_job_id hex)) as [->|Hne].
    + eexists. split; [apply elem_of_app; right; apply list_elem_of_singleton;
                        reflexivity | reflexivity].
    + rewrite lookup_insert_ne in Hk by congruence.
      destruct (IH k Hk) as (c' & Hin & Hid). exists c'.
      split; [apply elem_of_app; left; exact Hin | exact Hid].
  - destruct (run_statuses D c) as (j & Hterm & Hj).
    rewrite Hj in Hk. rewrite run_spawned.
    destruct (decide (k = spawn_job_id c)) as [->|Hne].
    + rewrite lookup_insert_eq in Hk. injection Hk as ->. discriminate.
    + rewrite lookup_insert_ne in Hk by congruence. apply IH, Hk.
Qed.

(** After a schedule, a job with a call in it is terminal and the others
    are as before. *)
Lemma run_all_statuses (D : Deps) sched : forall st k,
  (k ∈ spawn_job_id <$> sched ->
     exists j, job_statuses (run_all D sched st) !! k = Some j /\ terminal j = true) /\
  (k ∉ spawn_job_id <$> sched ->
     job_statuses (run_all D sched st) !! k = job_statuses st !! k).
Proof.
  induction sched as [|c sched IH]; intros st k.
  - split; [intros H; inversion H | reflexivity].
  - change (run_all D (c :: sched) st) with (run_all D sched (run D c st)).
    rewrite fmap_cons.
    destruct (IH (run D c st) k) as [IHin IHout].
    destruct (run_statuses D c) as (j & Hterm & Hj).
    split.
    + intros Hin.
      destruct (decide (k ∈ spawn_job_id <$> sched)) as [Hk|Hk]; [apply IHin, Hk|].
      apply elem_of_cons in Hin as [->|Hin]; [|contradiction].
      exists j. split; [|exact Hterm].
      rewrite (IHout Hk), Hj. apply lookup_insert_eq.
    + intros Hout. apply not_elem_of_cons in Hout as [Hne Hout].
      rewrite (IHout Hout), Hj. apply lookup_insert_ne. congruence.
Qed.

(** X3: no job stays submitted.  Take any store the deployment can reach
    from the empty dictionary by submissions (of URLs or of files) and by
    runs of spawned calls, in any interleaving, and let every call
    spawned so far run, in any order and any number of times: then no
    identifier reads as submitted, every job with a call reads as
    terminal, and no identifier has appeared or disappeared. *)
Theorem spawned_jobs_all_finish (D : Deps) (st : Store) (sched : list Spawn) :
  reachable D st ->
  (forall c, c ∈ spawned st -> c ∈ sched) ->
  forall k,
    job_statuses (run_all D sched st) !! k <> Some Submitted /\
    (k ∈ spawn_job_id <$> sched ->
       exists j, Modal.job_status k (run_all D sched st) = Ok j /\ terminal j = true) /\
    (k ∉ spawn_job_id <$> sched ->
       job_statuses (run_all D sched st) !! k = job_statuses st !! k).
Proof.
  intros Hreach Hsched k.
  destruct (run_all_statuses D sched st k) as [Hin Hout].
  split; [|split; [|exact Hout]].
  - intros Hk.
    destruct (decide (k ∈ spawn_job_id <$> sched)) as [Hd|Hd].
    + destruct (Hin Hd) as (j & Hj & Hterm). rewrite Hj in Hk.
      injection Hk as ->. discriminate.
    + rewrite (Hout Hd) in Hk.
      destruct (reachable_covered D st Hreach k Hk) as (c & Hc & <-).
      apply Hd, list_elem_of_fmap_2, Hsched, Hc.
  - intros Hd. destruct (Hin Hd) as (j & Hj & Hterm).
    exists j. split; [apply job_status_lookup, Hj | exact Hterm].
Qed.

Lemma spawned_jobs_all_finish_witness :
  exists j,
    Modal.job_status "job_89abcdef"
      (run_all (double [] ocr_fails)
         [process_url_job_spawn "job_89abcdef" (JStr "http://shop/tag.jpg")]
         (Modal.submit_job_url {[ "url" := JStr "http://shop/tag.jpg" ]}
            "89abcdef0123456789abcdef01234567" empty_store).2)
    = Ok j /\
    terminal j = true.
Proof.
  assert (reachable (double [] ocr_fails)
            (Modal.submit_job_url {[ "url" := JStr "http://shop/tag.jpg" ]}
               "89abcdef0123456789abcdef01234567" empty_store).2) as Hreach
    by apply reach_submit_job_url, reach_empty.
  assert (forall c,
            c ∈ spawned
                  (Modal.submit_job_url {[ "url" := JStr "http://shop/tag.jpg" ]}
                     "89abcdef0123456789abcdef01234567" empty_store).2 ->
            c ∈ [process_url_job_spawn "job_89abcdef" (JStr "http://shop/tag.jpg")])
    as Hsched by (intros c Hc; exact Hc).
  destruct (spawned_jobs_all_finish (double [] ocr_fails) _ _ Hreach Hsched
              "job_89abcdef") as (_ & Hin & _).
  apply Hin. apply list_elem_of_singleton. reflexivity.
Defined.

(** ** Job identifiers *)

Lemma substring_prefix (p s : string) :
  String.substring 0 (String.length p) (p +:+ s) = p.
Proof.
  induction p as [|a p IH]; simpl.
  - destruct s; reflexivity.
  - rewrite IH. reflexivity.
Qed.

Lemma substring_length_le (n : nat) (s : string) :
  (String.length (String.substring 0 n s) <= n)%nat.
Proof.
  revert s. induction n as [|n IH]; intros s; destruct s as [|a s]; simpl;
    try lia.
  specialize (IH s). lia.
Qed.

(** X4: a job identifier is "job_" followed by the first eight digits
    drawn, so it has at most 12 characters, and exactly these 12 when
    eight digits are there.  The other 24 digits of the UUID do not count:
    two submissions whose draws agree on the first eight digits are
    answered with the same identifier; the dictionary then holds one
    entry for the two of them, while two calls have been spawned for
    it. *)
Theorem job_id_is_first_eight_digits (p s s' : string) (r r' : gmap string json)
    (st : Store) :
  String.length p = 8%nat ->
  new_job_id (p +:+ s) = "job_" +:+ p /\
  String.length (new_job_id (p +:+ s)) = 12%nat /\
  (forall hex, (String.length (new_job_id hex) <= 12)%nat) /\
  new_job_id (p +:+ s) = new_job_id (p +:+ s') /\
  (truthy (default JNull (r !! "url")) = true ->
   truthy (default JNull (r' !! "url")) = true ->
   let st1 := (Modal.submit_job_url r (p +:+ s) st).2 in
   (Modal.submit_job_url r (p +:+ s) st).1
     = Ok {| job_id := "job_" +:+ p; submission_status := "submitted" |} /\
   (Modal.submit_job_url r' (p +:+ s') st1).1
     = Ok {| job_id := "job_" +:+ p; submission_status := "submitted" |} /\
   job_statuses (Modal.submit_job_url r' (p +:+ s') st1).2
     = <["job_" +:+ p := Submitted]> (job_statuses st) /\
   spawned (Modal.submit_job_url r' (p +:+ s') st1).2
     = spawned st ++
         [process_url_job_spawn ("job_" +:+ p) (default JNull (r !! "url"));
          process_url_job_spawn ("job_" +:+ p) (default JNull (r' !! "url"))]).
Proof.
  intros Hp.
  assert (forall t, new_job_id (p +:+ t) = "job_" +:+ p) as Hid.
  { intros t. unfold new_job_id. rewrite <- Hp, substring_prefix. reflexivity. }
  split; [apply Hid|].
  split.
  { rewrite Hid.
    change (String.length ("job_" +:+ p)) with (4 + String.length p)%nat.
    rewrite Hp. reflexivity. }
  split.
  { intros hex. unfold new_job_id.
    change (String.length ("job_" +:+ String.substring 0 8 hex))
      with (4 + String.length (String.substring 0 8 hex))%nat.
    pose proof (substring_length_le 8 hex). lia. }
  split; [rewrite !Hid; reflexivity|].
  intros Hr Hr' st1. unfold st1, Modal.submit_job_url.
  rewrite Hr, Hr', !Hid. simpl.
  split; [reflexivity|]. split; [reflexivity|].
  split; [apply insert_insert_eq|].
  rewrite <- app_assoc. reflexivity.
Qed.

Lemma job_id_is_first_eight_digits_witness :
  new_job_id ("89abcdef" +:+ "0123456789abcdef01234567")
  = new_job_id ("89abcdef" +:+ "fedcba9876543210fedcba98").
Proof.
  destruct (job_id_is_first_eight_digits "89abcdef" "0123456789abcdef01234567"
              "fedcba9876543210fedcba98" ∅ ∅ empty_store eq_refl)
    as (_ & _ & _ & H & _).
  exact H.
Defined.

(** ** The synchronous endpoints *)

Lemma raise_for_status_ok response :
  ~ 400 <= status_code response < 600 -> raise_for_status response = Ok tt.
Proof.
  intros H. unfold raise_for_status.
  destruct ((400 <=? status_code response) && (status_code response <? 600)) eqn:E;
    [|reflexivity].
  apply andb_prop in E as [E1 E2]. apply Z.leb_le in E1. apply Z.ltb_lt in E2. lia.
Qed.

Lemma raise_for_status_error response :
  400 <= status_code response < 600 ->
  raise_for_status response = Raise (Exception "HTTPError" "Client or Server Error").
Proof.
  intros [H1 H2]. unfold raise_for_status.
  apply Z.leb_le in H1. apply Z.ltb_lt in H2. rewrite H1, H2. reflexivity.
Qed.

Lemma url_reply_cases {A : Type} (m : result A) :
  (exists r, m = Ok r /\ url_reply m = Returns r) \/
  (exists e, m = Raise e /\ is_RequestException e = true /\
     url_reply m = HTTPException 400 ("Error downloading image: " +:+ str e)) \/
  (exists e, m = Raise e /\ is_RequestException e = false /\
     url_reply m = HTTPException 500 ("Error processing image: " +:+ str e)).
Proof.
  destruct m as [r|e]; [left; eauto|]. right. unfold url_reply.
  destruct (is_RequestException e) eqn:E; [left | right]; eauto.
Qed.



(** X7: the synchronous URL endpoint and the asynchronous job agree, in
    price-project/modal_app.py and in jupyter/modal_app.py.  On the same
    URL, the endpoint returns a body exactly when the job is marked
    completed, with that body as its result; otherwise the job is marked
    failed, and the detail of the HTTP error is the job's error message
    after "Error downloading image: " (status 400, for the exceptions of
    requests) or "Error processing image: " (status 500). *)
Theorem endpoint_agrees_with_job (D : Deps) (url job_id : string) (st : Store) :
  match Modal.process_image_url D url with
  | Returns r =>
      job_statuses (Modal.process_url_job D job_id (JStr url) st) !! job_id
        = Some (Completed r)
  | HTTPException status detail =>
      exists msg,
        job_statuses (Modal.process_url_job D job_id (JStr url) st) !! job_id
          = Some (Failed msg) /\
        (status = 400 /\ detail = "Error downloading image: " +:+ msg \/
         status = 500 /\ detail = "Error processing image: " +:+ msg)
  end /\
  match Jupyter.process_image_url D url with
  | Returns r =>
      job_statuses (Jupyter.process_url_job D job_id (JStr url) st) !! job_id
        = Some (Completed r)
  | HTTPException status detail =>
      exists msg,
        job_statuses (Jupyter.process_url_job D job_id (JStr url) st) !! job_id
          = Some (Failed msg) /\
        (status = 400 /\ detail = "Error downloading image: " +:+ msg \/
         status = 500 /\ detail = "Error processing image: " +:+ msg)
  end.
Proof.
  split.
  - change (Modal.process_image_url D url)
      with (url_reply (Modal.url_job_body D (JStr url))).
    rewrite process_url_job_statuses, lookup_insert_eq.
    destruct (Modal.url_job_body D (JStr url)) as [r|e]; simpl; [reflexivity|].
    destruct (is_RequestException e); exists (str e); auto.
  - change (Jupyter.process_image_url D url)
      with (url_reply (Jupyter.url_job_body D (JStr url))).
    rewrite jupyter_process_url_job_statuses, lookup_insert_eq.
    destruct (Jupyter.url_job_body D (JStr url)) as [r|e]; simpl; [reflexivity|].
    destruct (is_RequestException e); exists (str e); auto.
Qed.

(** ** The work queue *)

Lemma feed_queue_appends (urls : list string) : forall q : Queue,
  for_each (fun image_queue url => Ok (put url image_queue)) q urls = Ok (q ++ urls).
Proof.
  induction urls as [|url urls IH]; intros q; simpl.
  - rewrite app_nil_r. reflexivity.
  - rewrite IH. unfold put. rewrite <- app_assoc. reflexivity.
Qed.

(** The line [process_queue] of price-project/modal_app.py logs for a
    URL. *)
Lemma modal_process_queue_item (D : Deps) log url :
  Modal.process_queue_item D log url
  = Ok (log ++ [match Modal.url_job_body D (JStr url) with
                | Ok result => LogCount url (length (price_tags result))
                | Raise e => LogError url (str e)
                end]).
Proof.
  unfold Modal.process_queue_item.
  change (response ← requests_get D (JStr url);
          _ ← raise_for_status response;
          image ← (im ← Image_open D (content response); convert D im "RGB");
          Modal._detect_and_extract D (ArgImage image))
    with (Modal.url_job_body D (JStr url)).
  destruct (Modal.url_job_body D (JStr url)); reflexivity.
Qed.

(** X8: feeding the queue and working through it in
    price-project/modal_app.py.  [feed_queue] adds the URLs behind the
    items already queued, in the order given.  [process_queue] then
    returns normally whatever happens to the single URLs, and has logged
    one line per item in queue order: the number of records found when
    fetching, decoding and the orchestrator all returned, otherwise the
    message of the exception, after which the next item is taken all the
    same. *)
Theorem queue_fed_then_processed (D : Deps) (urls : list string) (q : Queue) :
  Modal.feed_queue urls q = Ok (q ++ urls) /\
  Modal.process_queue D (q ++ urls)
    = Ok ((fun url =>
             match Modal.url_job_body D (JStr url) with
             | Ok result => LogCount url (length (price_tags result))
             | Raise e => LogError url (str e)
             end) <$> (q ++ urls)).
Proof.
  split; [apply feed_queue_appends|].
  unfold Modal.process_queue, Modal.iterate.
  assert (forall l log,
            for_each (Modal.process_queue_item D) log l
            = Ok (log ++
                  ((fun url =>
                      match Modal.url_job_body D (JStr url) with
                      | Ok result => LogCount url (length (price_tags result))
                      | Raise e => LogError url (str e)
                      end) <$> l))) as Hloop.
  { induction l as [|url l IH]; intros log; simpl.
    - rewrite app_nil_r. reflexivity.
    - rewrite modal_process_queue_item. simpl. rewrite IH, <- app_assoc.
      reflexivity. }
  rewrite Hloop. reflexivity.
Qed.

(** X9: the [while] loop of [process_queue] in jupyter/modal_app.py
    ends, when no one else takes from or adds to the queue meanwhile.  On
    a queue of n items it makes n turns and one last test: with more than
    n turns allowed it returns, the queue is empty and one line has been
    printed per item, in queue order, after the lines printed before;
    with n turns or fewer it has not returned yet.  A turn prints the
    result when fetching, decoding and the orchestrator all returned, and
    the message of the exception otherwise.  [feed_queue] adds the URLs
    behind the items already queued. *)
Theorem jupyter_process_queue_ends (D : Deps) (fuel : nat) (q : Queue)
    (log : list LogLine) :
  Jupyter.process_queue D fuel q log =
    (if decide (length q < fuel)%nat
     then Some ([], log ++ (Jupyter.process_queue_item D <$> q))
     else None) /\
  (forall url,
     Jupyter.process_queue_item D url =
       match Jupyter.url_job_body D (JStr url) with
       | Ok result => LogResult url result
       | Raise e => LogError url (str e)
       end) /\
  (forall urls, Jupyter.feed_queue urls q = Ok (q ++ urls)).
Proof.
  split; [|split; [reflexivity | intros urls; apply feed_queue_appends]].
  revert q log. induction fuel as [|fuel IH]; intros q log; [reflexivity|].
  destruct q as [|url q].
  - change (Jupyter.process_queue D (S fuel) [] log) with (Some (([] : Queue), log)).
    rewrite decide_True by (simpl; lia). rewrite app_nil_r. reflexivity.
  - change (Jupyter.process_queue D (S fuel) (url :: q) log)
      with (Jupyter.process_queue D fuel q (log ++ [Jupyter.process_queue_item D url])).
    rewrite IH, fmap_cons. destruct (decide (length q < fuel)%nat).
    + rewrite decide_True by (simpl; lia). rewrite <- app_assoc. reflexivity.
    + rewrite decide_False by (simpl; lia). reflexivity.
Qed.

(** ** What the OCR model is given *)

Lemma valid_clamped image box x1 y1 x2 y2 :
  clamp image (xyxy box) = (x1, y1, x2, y2) ->
  valid image box = true ->
  0 <= x1 < x2 /\ x2 <= PIL.width image /\ 0 <= y1 < y2 /\ y2 <= PIL.height image.
Proof.
  unfold valid, clamp, degenerate.
  destruct (xyxy box) as [[[a1 b1] a2] b2]. intros [= <- <- <- <-] H.
  apply negb_true_iff, orb_false_elim in H as [Hx Hy].
  apply Z.leb_gt in Hx. apply Z.leb_gt in Hy. lia.
Qed.

(** X10: what main.py and price-project/modal_app.py hand to the OCR
    model for a detection that survives clamping, on an image whose sides
    are below 2^31.  The padded crop is a square whose side is at least 1
    and at most the larger side of the image.  Up to side 1024 the model
    gets it as it is; above, it is first resized to k x k with k = 1024 or
    k = 1023: the two dimensions handed to [resize] are always equal and
    never 0. *)
Theorem ocr_input_is_bounded_square (D : Deps) (image : PIL.Image) (box : Box) :
  let p := padded_crop image box in
  let s := PIL.width p in
  0 <= PIL.width image < 2 ^ 31 -> 0 <= PIL.height image < 2 ^ 31 ->
  valid image box = true ->
  PIL.height p = s /\
  1 <= s <= Z.max (PIL.width image) (PIL.height image) /\
  (s <= 1024 ->
     Main._extract_text_body D p = ocr D p /\
     Modal.extract_text D p = ocr D p) /\
  (1024 < s ->
     exists k, 1023 <= k <= 1024 /\
       Main.new_size (PIL.size p) = Ok (Some (k, k)) /\
       Main._extract_text_body D p = (resized ← resize D p (k, k); ocr D resized) /\
       Modal.extract_text D p = (resized ← resize D p (k, k); ocr D resized)).
Proof.
  intros p s HW HH Hvalid.
  assert (PIL.size p = (s, s) /\ 1 <= s <= Z.max (PIL.width image) (PIL.height image))
    as [Hsize Hs].
  { unfold s, p, padded_crop.
    destruct (clamp image (xyxy box)) as [[[x1 y1] x2] y2] eqn:Hclamp.
    destruct (valid_clamped _ _ _ _ _ _ Hclamp Hvalid) as (Hx1 & Hx2 & Hy1 & Hy2).
    match goal with |- context [Main._pad_to_square ?c ?bg] =>
      pose proof (pad_size c bg) as Hpad;
      set (q := Main._pad_to_square c bg) in * end.
    cbn [PIL.width PIL.height] in Hpad. unfold PIL.size in *.
    apply pair_equal_spec in Hpad as [Hw Hh]. rewrite Hh, Hw.
    split; [reflexivity | lia]. }
  assert (PIL.height p = s) as Hheight
    by (unfold PIL.size in Hsize; apply pair_equal_spec in Hsize as [_ Hh]; exact Hh).
  split; [exact Hheight|]. split; [exact Hs|].
  split.
  - intros Hsmall.
    assert (Main.new_size (PIL.size p) = Ok None) as Hnew.
    { rewrite Hsize. unfold Main.new_size. cbn [fst snd]. rewrite Z.max_id.
      replace (s >? 1024) with false
        by (symmetry; rewrite Z.gtb_ltb; apply Z.ltb_ge; lia).
      reflexivity. }
    split.
    + unfold Main._extract_text_body. rewrite Hnew. reflexivity.
    + change (Modal.extract_text D p) with (Main._extract_text_body D p).
      unfold Main._extract_text_body. rewrite Hnew. reflexivity.
  - intros Hbig.
    destruct (scaled_dimension s) as (scale & Hscale & Hdim); [lia|].
    destruct (Hdim s) as (k & Hk & Hk0 & Hkb); [lia|].
    assert (1024 * s / s = 1024) as Hq by (apply Z.div_mul; lia).
    rewrite Hq in Hkb.
    exists k. split; [lia|].
    assert (Main.new_size (PIL.size p) = Ok (Some (k, k))) as Hnew.
    { rewrite Hsize. unfold Main.new_size. cbn [fst snd]. rewrite Z.max_id.
      replace (s >? 1024) with true
        by (symmetry; rewrite Z.gtb_ltb; apply Z.ltb_lt; lia).
      rewrite Hscale. cbn [mbind result_bind]. rewrite Hk. reflexivity. }
    split; [exact Hnew|]. split.
    + unfold Main._extract_text_body. rewrite Hnew. reflexivity.
    + change (Modal.extract_text D p) with (Main._extract_text_body D p).
      unfold Main._extract_text_body. rewrite Hnew. reflexivity.
Qed.

(** A 1600 x 1200 detection on a 4000 x 3000 photograph: the crop is
    padded to 1600 x 1600, above the limit. *)
Lemma ocr_input_is_bounded_square_witness :
  exists k, 1023 <= k <= 1024 /\
    Main.new_size
      (PIL.size (padded_crop (rgb 4000 3000 PIL.white) (detection (100, 100, 1700, 1300))))
    = Ok (Some (k, k)).
Proof.
  assert (0 <= PIL.width (rgb 4000 3000 PIL.white) < 2 ^ 31) as HW by (cbn; lia).
  assert (0 <= PIL.height (rgb 4000 3000 PIL.white) < 2 ^ 31) as HH by (cbn; lia).
  destruct (ocr_input_is_bounded_square (double [] ocr_fails)
              (rgb 4000 3000 PIL.white) (detection (100, 100, 1700, 1300))
              HW HH eq_refl) as (_ & _ & _ & Hbig).
  destruct Hbig as (k & Hk & Hnew & _); [vm_compute; reflexivity|].
  exists k. split; [exact Hk | exact Hnew].
Defined.

(** ** The two price-project deployments side by side *)

Lemma main_tag_extracted (D : Deps) image box t :
  Modal.extract_text D (padded_crop image box) = Ok t ->
  modal_tag D box t = main_tag D image box.
Proof.
  intros H. unfold modal_tag, main_tag, Main._extract_text.
  change (Main._extract_text_body D (padded_crop image box))
    with (Modal.extract_text D (padded_crop image box)).
  rewrite H. reflexivity.
Qed.

Lemma main_tag_not_extracted (D : Deps) image box :
  extracted D image box = false -> text (main_tag D image box) = "".
Proof.
  unfold extracted, main_tag, Main._extract_text. simpl.
  change (Main._extract_text_body D (padded_crop image box))
    with (Modal.extract_text D (padded_crop image box)).
  destruct (Modal.extract_text D (padded_crop image box)); [discriminate | reflexivity].
Qed.

Lemma modal_pick_extracted (D : Deps) image (l : list Box) :
  omap (modal_pick D image) l
  = main_tag D image <$>
      filter (fun b => extracted D image b = true)
        (filter (fun b => valid image b = true) l).
Proof.
  induction l as [|b l IH]; [reflexivity|].
  change (omap (modal_pick D image) (b :: l))
    with (match modal_pick D image b with
          | Some t => t :: omap (modal_pick D image) l
          | None => omap (modal_pick D image) l
          end).
  rewrite IH, (filter_cons (fun b => valid image b = true)).
  unfold modal_pick.
  destruct (valid image b) eqn:Hv.
  - rewrite decide_True by reflexivity. rewrite filter_cons.
    assert (extracted D image b = is_ok (Modal.extract_text D (padded_crop image b)))
      as He by reflexivity.
    destruct (Modal.extract_text D (padded_crop image b)) as [t|e] eqn:Ht;
      simpl in He.
    + rewrite decide_True by exact He. rewrite fmap_cons.
      rewrite (main_tag_extracted D image b t Ht). reflexivity.
    + rewrite decide_False by (rewrite He; discriminate). reflexivity.
  - rewrite decide_False by discriminate. reflexivity.
Qed.



(** ** A class the detector does not name *)

Lemma jupyter_tags_first_failure (D : Deps) image pre box post e :
  Forall (fun b => is_ok (jupyter_prepare D image b) = true) pre ->
  jupyter_prepare D image box = Raise e ->
  jupyter_tags D image (pre ++ box :: post) = Raise e.
Proof.
  intros Hpre Hbox. induction Hpre as [|b pre Hb _ IH]; simpl.
  - rewrite Hbox. reflexivity.
  - destruct (jupyter_prepare D image b); [|discriminate]. simpl.
    rewrite IH. reflexivity.
Qed.

(** X12: a detection whose class identifier is not a key of
    [detector_model.names].  main.py and price-project/modal_app.py fall
    back on the class name "price_tag": when the detection survives
    clamping, main.py returns and the record of the detection, with its
    raw box, is in the result under that name.  jupyter/modal_app.py
    indexes the dictionary: when the detections before this one went
    through and its crop succeeds, the whole call raises [KeyError] with
    the identifier, and no record of any detection is returned. *)
Theorem unknown_class_id (D : Deps) (image : PIL.Image) (results : list Results)
    (pre post : list Box) (box : Box) :
  all_boxes results = pre ++ box :: post ->
  names D !! cls box = None ->
  (PIL.mode image = "RGB" ->
   predict D image Main.DETECTION_CONF_THRESHOLD = Ok results ->
   valid image box = true ->
   exists r tag,
     Main.detect_and_extract D (ArgImage image) = Ok r /\
     tag ∈ price_tags r /\ bbox tag = raw box /\ class tag = "price_tag") /\
  (forall t, class (modal_tag D box t) = "price_tag") /\
  (predict D image Float64.f0_1 = Ok results ->
   Forall (fun b => is_ok (jupyter_prepare D image b) = true) pre ->
   is_ok (PIL.crop image (xyxy box)) = true ->
   Jupyter._detect_and_extract D (ArgImage image)
     = Raise (Exception "KeyError" (pretty (cls box)))).
Proof.
  intros Hboxes Hname. split; [|split].
  - intros Hmode Hpred Hvalid.
    assert (Main.as_rgb D (ArgImage image) = Ok image) as Hrgb.
    { unfold Main.as_rgb. simpl. rewrite Hmode. reflexivity. }
    eexists _, (main_tag D image box).
    split; [apply (main_detect_and_extract D _ _ _ Hrgb Hpred)|].
    cbn [price_tags]. split; [|split].
    + apply list_elem_of_fmap_2, list_elem_of_filter. split; [exact Hvalid|].
      rewrite Hboxes. apply elem_of_app. right. apply elem_of_cons. left.
      reflexivity.
    + reflexivity.
    + unfold main_tag. simpl. rewrite Hname. reflexivity.
  - intros t. unfold modal_tag. simpl. rewrite Hname. reflexivity.
  - intros Hpred Hpre Hcrop.
    rewrite (jupyter_detect_and_extract D image results Hpred), Hboxes.
    rewrite (jupyter_tags_first_failure D image pre box post
               (Exception "KeyError" (pretty (cls box))) Hpre); [reflexivity|].
    unfold jupyter_prepare.
    destruct (PIL.crop image (xyxy box)); [|discriminate]. simpl.
    rewrite Hname. reflexivity.
Qed.

(** A detection of class 7, which the detector does not name. *)
Lemma unknown_class_id_witness :
  (exists r tag,
     Main.detect_and_extract
       (double [ {| xyxy := (1, 1, 5, 5); conf := Float64.f0_25; cls := 7 |} ]
          (ocr_reads "1.99"))
       (ArgImage (rgb 10 10 PIL.white)) = Ok r /\
     tag ∈ price_tags r /\ bbox tag = [1; 1; 5; 5] /\ class tag = "price_tag") /\
  Jupyter._detect_and_extract
    (double [ {| xyxy := (1, 1, 5, 5); conf := Float64.f0_25; cls := 7 |} ]
       (ocr_reads "1.99"))
    (ArgImage (rgb 10 10 PIL.white))
  = Raise (Exception "KeyError" (pretty 7)).
Proof.
  destruct (unknown_class_id
              (double [ {| xyxy := (1, 1, 5, 5); conf := Float64.f0_25; cls := 7 |} ]
                 (ocr_reads "1.99"))
              (rgb 10 10 PIL.white)
              [ {| boxes := [ {| xyxy := (1, 1, 5, 5); conf := Float64.f0_25;
                                 cls := 7 |} ] |} ]
              [] [] {| xyxy := (1, 1, 5, 5); conf := Float64.f0_25; cls := 7 |}
              eq_refl eq_refl) as (Hmain & _ & Hjupyter).
  split.
  - apply Hmain; reflexivity.
  - apply Hjupyter; [reflexivity | constructor | reflexivity].
Defined.

(** ** Loading the models *)

Lemma load_models_with_token (L : Loader) token :
  environ_get L "HF_TOKEN" = Some token -> token <> "" ->
  Main._load_models L =
    match Main.load_detector L token with
    | Raise e =>
        Raise (Exception "RuntimeError" ("Failed to load detector model: " +:+ str e))
    | Ok detector =>
        match Main.load_ocr L token with
        | Raise e =>
            Raise (Exception "RuntimeError" ("Failed to load OCR model: " +:+ str e))
        | Ok (processor, model) =>
            Ok {| detector_model := detector; ocr_processor := processor;
                  ocr_model := model |}
        end
    end.
Proof.
  intros Htoken Hne. apply String.eqb_neq in Hne.
  unfold Main._load_models. rewrite Htoken, Hne. reflexivity.
Qed.

(** X13: what [_load_models] of main.py can raise.  Without [HF_TOKEN]
    in the environment, or with an empty one, it raises [ValueError]
    before anything is loaded.  Otherwise every failure comes out as a
    [RuntimeError]: "Failed to load detector model: ..." or "Failed to
    load OCR model: ..." followed by the message of the cause.  When the
    weights are on disk the hub is not asked; when they are not and the
    download (or loading the downloaded file) fails, the
    [FileNotFoundError] raised for it does not come out as such: its
    message is wrapped in the [RuntimeError].  The call returns exactly
    when the token is there and both loads return. *)
Theorem load_models_outcomes (L : Loader) :
  ((environ_get L "HF_TOKEN" = None \/ environ_get L "HF_TOKEN" = Some "") ->
   Main._load_models L
     = Raise (Exception "ValueError" "HF_TOKEN environment variable not set")) /\
  (forall token, environ_get L "HF_TOKEN" = Some token -> token <> "" ->
     (path_exists L Main.DETECTION_MODEL_PATH = true ->
        Main.load_detector L token = YOLO L Main.DETECTION_MODEL_PATH) /\
     (forall e,
        path_exists L Main.DETECTION_MODEL_PATH = false ->
        mkdir L Main.DETECTION_MODEL_DIR = Ok tt ->
        (model_file ← hf_hub_download L "openfoodfacts/open-prices" "best.pt" token
                        Main.DETECTION_MODEL_DIR;
         YOLO L model_file) = Raise e ->
        Main._load_models L
          = Raise (Exception "RuntimeError"
                     ("Failed to load detector model: Detector model not found at models/price-tag-detection/weights/best.pt and download failed. Error: "
                      +:+ str e))) /\
     (forall e, Main.load_detector L token = Raise e ->
        Main._load_models L
          = Raise (Exception "RuntimeError"
                     ("Failed to load detector model: " +:+ str e))) /\
     (forall detector e,
        Main.load_detector L token = Ok detector ->
        Main.load_ocr L token = Raise e ->
        Main._load_models L
          = Raise (Exception "RuntimeError" ("Failed to load OCR model: " +:+ str e))) /\
     (forall detector processor model,
        Main.load_detector L token = Ok detector ->
        Main.load_ocr L token = Ok (processor, model) ->
        Main._load_models L
          = Ok {| detector_model := detector; ocr_processor := processor;
                  ocr_model := model |})) /\
  (forall e, Main._load_models L = Raise e ->
     exn_class e = "ValueError" \/ exn_class e = "RuntimeError").
Proof.
  split; [|split].
  - intros [H|H]; unfold Main._load_models; rewrite H; reflexivity.
  - intros token Htoken Hne.
    rewrite (load_models_with_token L token Htoken Hne).
    split; [|split; [|split; [|split]]].
    + intros Hexists. unfold Main.load_detector. rewrite Hexists. reflexivity.
    + intros e Hexists Hmkdir Hdown.
      unfold Main.load_detector. rewrite Hexists, Hmkdir.
      change (mbind ?f (Ok tt)) with (f tt). cbv beta. rewrite Hdown. reflexivity.
    + intros e Hdet. rewrite Hdet. reflexivity.
    + intros detector e Hdet Hocr. rewrite Hdet, Hocr. reflexivity.
    + intros detector processor model Hdet Hocr. rewrite Hdet, Hocr. reflexivity.
  - intros e.
    destruct (environ_get L "HF_TOKEN") as [token|] eqn:Htoken.
    + destruct (String.eqb_spec token "") as [->|Hne].
      * unfold Main._load_models. rewrite Htoken. intros [= <-]. left. reflexivity.
      * rewrite (load_models_with_token L token Htoken Hne).
        destruct (Main.load_detector L token); [|intros [= <-]; right; reflexivity].
        destruct (Main.load_ocr L token) as [[processor model]|];
          [discriminate | intros [= <-]; right; reflexivity].
    + unfold Main._load_models. rewrite Htoken. intros [= <-]. left. reflexivity.
Qed.

(** ** Weights on disk *)

Lemma token_test (token : string) :
  token <> "" ->
  negb (match Some token with
        | Some t => negb (String.eqb t "")
        | None => false
        end) = false.
Proof. intros Hne. apply String.eqb_neq in Hne. cbv beta iota. rewrite Hne. reflexivity. Qed.

(** X14: download_model.py puts the weights where main.py looks for them.
    With a token in the environment, a directory that can be made and a
    hub that serves weights/best.pt, [download_models] leaves the file at
    models/price-tag-detection/weights/best.pt, which is
    [DETECTION_MODEL_PATH] of main.py: on such a disk [_load_models] loads
    the detector from that file and does not ask the hub.  The script
    removes no file; when the directory cannot be made or the hub does
    not serve the file, the exception is caught and nothing changes. *)
Theorem downloaded_weights_are_found (L : Loader) (H : Hub) (files : Files)
    (token : string) :
  let files' := DownloadModel.download_models L H files in
  environ_get L "HF_TOKEN" = Some token -> token <> "" ->
  files ⊆ files' /\
  (mkdir L "models/price-tag-detection" = Ok tt ->
   fetch H "openfoodfacts/price-tag-detection" "weights/best.pt" (Some token) = Ok tt ->
   files' = {[ Main.DETECTION_MODEL_PATH ]} ∪ files /\
   forall L',
     (forall path, path_exists L' path = bool_decide (path ∈ files')) ->
     forall token', Main.load_detector L' token' = YOLO L' Main.DETECTION_MODEL_PATH) /\
  (forall e, mkdir L "models/price-tag-detection" = Raise e -> files' = files) /\
  (forall e,
     fetch H "openfoodfacts/price-tag-detection" "weights/best.pt" (Some token) = Raise e ->
     files' = files).
Proof.
  intros files' Htoken Hne. unfold files', DownloadModel.download_models.
  rewrite Htoken, (token_test token Hne).
  unfold hf_hub_download_to, DownloadModel.DETECTION_MODEL_DIR.
  change (if String.eqb "weights" "" then "best.pt" else "weights" +:+ "/" +:+ "best.pt")
    with "weights/best.pt".
  change ("models/price-tag-detection" +:+ "/" +:+ "weights/best.pt")
    with Main.DETECTION_MODEL_PATH.
  split; [|split; [|split]].
  - destruct (mkdir L "models/price-tag-detection"); [|reflexivity].
    destruct (fetch H _ _ _); simpl; set_solver.
  - intros -> ->. simpl. split; [reflexivity|].
    intros L' Hexists token'. unfold Main.load_detector.
    rewrite Hexists, bool_decide_eq_true_2 by set_solver. reflexivity.
  - intros e ->. reflexivity.
  - intros e ->. destruct (mkdir L "models/price-tag-detection"); reflexivity.
Qed.

Lemma downloaded_weights_are_found_witness :
  DownloadModel.download_models (loader (Some "hf_secret")) hub_up ∅
  = {[ Main.DETECTION_MODEL_PATH ]} ∪ ∅.
Proof.
  destruct (downloaded_weights_are_found (loader (Some "hf_secret")) hub_up ∅
              "hf_secret" eq_refl) as (_ & Hfound & _); [discriminate|].
  destruct (Hfound eq_refl eq_refl) as [Hfiles _]. exact Hfiles.
Defined.



(** ** One bad detection in the jupyter deployment *)

Lemma url_job_body_fetched (D : Deps) url response image :
  requests_get D url = Ok response ->
  ~ 400 <= status_code response < 600 ->
  (im ← Image_open D (content response); convert D im "RGB") = Ok image ->
  Modal.url_job_body D url = Modal._detect_and_extract D (ArgImage image) /\
  Jupyter.url_job_body D url = Jupyter._detect_and_extract D (ArgImage image).
Proof.
  intros Hget Hstatus Hdecode. unfold Modal.url_job_body, Jupyter.url_job_body.
  rewrite Hget. simpl. rewrite (raise_for_status_ok _ Hstatus). simpl.
  rewrite Hdecode. split; reflexivity.
Qed.

(** X16: in jupyter/modal_app.py one inverted box fails the whole
    request.  The image is fetched and decoded and the detector answers;
    among the detections one has its right edge left of its left edge, or
    its lower edge above its upper one, and those before it went through.
    Then the orchestrator raises the [ValueError] of the crop, the
    synchronous endpoint answers 500 with its message, the job is marked
    failed with it, and no record of any detection is returned.  On the
    same detections price-project/modal_app.py completes the job. *)
Theorem jupyter_inverted_box_fails_the_request (D : Deps) (url job_id : string)
    (st : Store) (response : Response) (image : PIL.Image) (results : list Results)
    (pre post : list Box) (box : Box) (x1 y1 x2 y2 : Z) :
  requests_get D (JStr url) = Ok response ->
  ~ 400 <= status_code response < 600 ->
  (im ← Image_open D (content response); convert D im "RGB") = Ok image ->
  all_boxes results = pre ++ box :: post ->
  Forall (fun b => is_ok (jupyter_prepare D image b) = true) pre ->
  xyxy box = (x1, y1, x2, y2) ->
  x2 < x1 \/ y2 < y1 ->
  (predict D image Float64.f0_1 = Ok results ->
   exists msg,
     Jupyter._detect_and_extract D (ArgImage image)
       = Raise (Exception "ValueError" msg) /\
     Jupyter.process_image_url D url
       = HTTPException 500 ("Error processing image: " +:+ msg) /\
     job_statuses (Jupyter.process_url_job D job_id (JStr url) st) !! job_id
       = Some (Failed msg)) /\
  (predict D image Float64.f0_25 = Ok results ->
   exists r,
     job_statuses (Modal.process_url_job D job_id (JStr url) st) !! job_id
       = Some (Completed r) /\
     raw box ∉ bbox <$> price_tags r).
Proof.
  intros Hget Hstatus Hdecode Hboxes Hpre Hbox Hinv.
  destruct (url_job_body_fetched D (JStr url) response image Hget Hstatus Hdecode)
    as [Hmodal Hjupyter].
  split.
  - intros Hpred.
    assert (exists msg, PIL.crop image (xyxy box) = Raise (Exception "ValueError" msg))
      as (msg & Hcrop).
    { rewrite Hbox. unfold PIL.crop.
      destruct (x2 <? x1) eqn:Hx; [eexists; reflexivity|].
      apply Z.ltb_ge in Hx.
      replace (y2 <? y1) with true by (symmetry; apply Z.ltb_lt; lia).
      eexists; reflexivity. }
    exists msg.
    assert (Jupyter._detect_and_extract D (ArgImage image)
            = Raise (Exception "ValueError" msg)) as Hraise.
    { rewrite (jupyter_detect_and_extract D image results Hpred), Hboxes.
      rewrite (jupyter_tags_first_failure D image pre box post
                 (Exception "ValueError" msg) Hpre); [reflexivity|].
      unfold jupyter_prepare. rewrite Hcrop. reflexivity. }
    split; [exact Hraise|]. split.
    + change (Jupyter.process_image_url D url)
        with (url_reply (Jupyter.url_job_body D (JStr url))).
      rewrite Hjupyter, Hraise. reflexivity.
    + rewrite jupyter_process_url_job_statuses, lookup_insert_eq, Hjupyter, Hraise.
      reflexivity.
  - intros Hpred. eexists.
    rewrite process_url_job_statuses, lookup_insert_eq, Hmodal.
    rewrite (modal_detect_and_extract D (ArgImage image) image results eq_refl Hpred).
    split; [reflexivity|]. cbn [price_tags].
    assert (valid image box = false) as Hinvalid.
    { unfold valid, clamp, degenerate. rewrite Hbox.
      apply negb_false_iff, orb_true_iff.
      destruct Hinv; [left | right]; apply Z.leb_le; lia. }
    destruct (modal_kept D image (all_boxes results)) as (kept & Hsub & Hkept).
    rewrite Hkept. intros Hin.
    apply list_elem_of_fmap in Hin as (b & Hraw & Hb).
    apply (sublist_subseteq _ _ Hsub), list_elem_of_filter in Hb as [Hvalid _].
    rewrite <- (valid_raw image box b Hraw) in Hvalid. congruence.
Qed.

(** The detector reports the box (5, 1, 1, 5) on a 10 x 10 image. *)
Lemma jupyter_inverted_box_fails_the_request_witness :
  exists msg,
    job_statuses
      (Jupyter.process_url_job (online (double [detection (5, 1, 1, 5)] (ocr_reads "1.99")))
         "job_0123abcd" (JStr "http://shop/tag.jpg") one_submitted) !! "job_0123abcd"
    = Some (Failed msg).
Proof.
  assert (~ 400 <= status_code {| status_code := 200; content := [] |} < 600)
    as Hstatus by (cbn; lia).
  destruct (jupyter_inverted_box_fails_the_request
              (online (double [detection (5, 1, 1, 5)] (ocr_reads "1.99")))
              "http://shop/tag.jpg" "job_0123abcd" one_submitted
              {| status_code := 200; content := [] |} (rgb 10 10 PIL.white)
              [ {| boxes := [detection (5, 1, 1, 5)] |} ] [] [] (detection (5, 1, 1, 5))
              5 1 1 5 eq_refl Hstatus eq_refl eq_refl (Forall_nil_2 _) eq_refl)
    as [Hjupyter _]; [left; lia|].
  destruct (Hjupyter eq_refl) as (msg & _ & _ & Hjob).
  exists msg. exact Hjob.
Defined.
